(** * PINO training driver: [train_pino-simple.py]

    A shallow embedding of the orchestration code of [train_pino-simple.py]
    ([eval_ns], [train_ns], [subprocess] and the [__main__] block)
    together with the properties its specification states about it and
    further properties read off the code.

    The numerical collaborators of the script (the FNO3d network, the
    relative Lp loss, the PDE residual, the datasets, the optimiser) live
    in other modules of the repository; they are taken as a record of
    external routines.  Scalars (Python floats and 0-dimensional tensors)
    are an abstract numeric interface, with Python's floats (IEEE 754
    binary64) and the exact rationals as instances; the facts about zero
    terms that one theorem needs are a class of their own, which the
    floats satisfy. *)

From Stdlib Require Import ZArith List String Ascii Bool Lia.
From Stdlib Require Import DecimalString QArith Qcanon SpecFloat.
From Stdlib Require DecimalPos DecimalZ.
Import ListNotations.

Local Open Scope string_scope.
Local Open Scope list_scope.
Local Open Scope Z_scope.

Set Implicit Arguments.

(* ===================================================================== *)
(** * Python values and primitives *)
(* ===================================================================== *)

Module Py.

(** The exceptions the modelled code can raise by itself. *)
Inductive exn : Set :=
| ZeroDivisionError
| ValueError
| IndexError
| FileNotFoundError.

Inductive result (A : Type) : Type :=
| Ok (a : A)
| Raise (e : exn).

Arguments Ok {A} a.
Arguments Raise {A} e.

Definition is_ok {A} (r : result A) : bool :=
  match r with Ok _ => true | Raise _ => false end.

(** [a // b] on Python ints: floor division, [ZeroDivisionError] on 0. *)
Definition floordiv (a b : Z) : result Z :=
  if b =? 0 then Raise ZeroDivisionError else Ok (a / b).

(** [a % b] on Python ints: the sign follows the divisor, as [Z.modulo]. *)
Definition mod_ (a b : Z) : result Z :=
  if b =? 0 then Raise ZeroDivisionError else Ok (a mod b).

(** [l[i]] on a Python list, negative indices counting from the end. *)
Definition getitem {A} (l : list A) (i : Z) : result A :=
  let n := Z.of_nat (List.length l) in
  let j := if i <? 0 then i + n else i in
  if (j <? 0) || (n <=? j) then Raise IndexError
  else match nth_error l (Z.to_nat j) with
       | Some x => Ok x
       | None => Raise IndexError
       end.

(** [range(n)] *)
Definition range (n : Z) : list Z :=
  map Z.of_nat (seq 0 (Z.to_nat n)).

(** [str(e)] / [f'{e}'] for an int. *)
Definition str_of_int (e : Z) : string :=
  NilZero.string_of_int (Z.to_int e).

(** [len(l)] *)
Definition len {A} (l : list A) : Z := Z.of_nat (List.length l).

(** ** [os.path.join] (posixpath), two components at a time *)

Definition starts_with_sep (s : string) : bool :=
  match s with
  | String c _ => Ascii.eqb c "/"
  | EmptyString => false
  end.

Fixpoint ends_with_sep (s : string) : bool :=
  match s with
  | EmptyString => false
  | String c EmptyString => Ascii.eqb c "/"
  | String _ t => ends_with_sep t
  end.

Definition is_empty (s : string) : bool :=
  match s with EmptyString => true | _ => false end.

Definition path_join (a b : string) : string :=
  if starts_with_sep b then b
  else if is_empty a || ends_with_sep a then (a ++ b)%string
  else (a ++ "/" ++ b)%string.

(** ** Dictionaries with string keys, in insertion order *)

Definition dict (V : Type) := list (string * V).

Fixpoint dict_set {V} (d : dict V) (k : string) (v : V) : dict V :=
  match d with
  | [] => [(k, v)]
  | (k', v') :: d' =>
      if String.eqb k' k then (k', v) :: d' else (k', v') :: dict_set d' k v
  end.

Fixpoint dict_get {V} (d : dict V) (k : string) : option V :=
  match d with
  | [] => None
  | (k', v') :: d' => if String.eqb k' k then Some v' else dict_get d' k
  end.

End Py.

Import Py.

(* ===================================================================== *)
(** * Scalars *)
(* ===================================================================== *)

(** The arithmetic the script performs on loss values and weights. *)
Class Scalar (R : Type) : Type := {
  s_zero : R;
  s_one : R;
  s_add : R -> R -> R;
  s_mul : R -> R -> R;
  s_div : R -> R -> R;
  s_of_int : Z -> R;
  s_is_zero : R -> bool
}.

(** Numbers the program cannot tell apart with [==]: equal, or both a
    zero (IEEE 754 has two, [0.0] and [-0.0]). *)
Definition same_number {R} {SR : Scalar R} (x y : R) : Prop :=
  x = y \/ (s_is_zero x = true /\ s_is_zero y = true).

(** What IEEE 754 arithmetic says of zero terms: the product of zero
    and a finite number (not an infinity, not a NaN) is a zero, and
    adding a zero changes no number. *)
Class ZeroTerms (R : Type) {SR : Scalar R} : Type := {
  s_is_finite : R -> bool;
  s_zero_finite : forall w : R, s_is_zero w = true -> s_is_finite w = true;
  s_mul_zero_l : forall w : R, s_is_finite w = true -> s_is_zero (s_mul s_zero w) = true;
  s_add_zero_r : forall x z : R, s_is_zero z = true -> same_number (s_add x z) x
}.

Arguments ZeroTerms R {SR}.

(** [x / n] with a Python float [x] and an int [n]. *)
Definition truediv_int {R} {SR : Scalar R} (x : R) (n : Z) : result R :=
  if n =? 0 then Raise ZeroDivisionError else Ok (s_div x (s_of_int n)).

(** [x / y] on Python numbers. *)
Definition truediv {R} {SR : Scalar R} (x y : R) : result R :=
  if s_is_zero y then Raise ZeroDivisionError else Ok (s_div x y).

(** Exact rationals as scalars. *)
#[export] Instance Scalar_Qc : Scalar Qc := {
  s_zero := Q2Qc 0;
  s_one := Q2Qc 1;
  s_add := Qcplus;
  s_mul := Qcmult;
  s_div := Qcdiv;
  s_of_int := fun z => Q2Qc (inject_Z z);
  s_is_zero := fun q => Qeq_bool (this q) 0
}.

(** Python floats: IEEE 754 binary64.  (Loss tensors are binary32; what
    is used of the arithmetic below, the products and sums with zeros,
    infinities and NaN, is the same in both formats.) *)
Module Binary64.

Definition prec : Z := 53.
Definition emax : Z := 1024.

(** [float(z)] for an int, and [m * 2**e]. *)
Definition of_int (z : Z) : spec_float := binary_normalize prec emax z 0 false.
Definition num (m e : Z) : spec_float := binary_normalize prec emax m e false.

Definition is_zero (x : spec_float) : bool :=
  match x with S754_zero _ => true | _ => false end.

Definition is_finite (x : spec_float) : bool :=
  match x with S754_zero _ | S754_finite _ _ _ => true | _ => false end.

End Binary64.

#[export] Instance Scalar_binary64 : Scalar spec_float := {
  s_zero := S754_zero false;
  s_one := Binary64.of_int 1;
  s_add := SFadd Binary64.prec Binary64.emax;
  s_mul := SFmul Binary64.prec Binary64.emax;
  s_div := SFdiv Binary64.prec Binary64.emax;
  s_of_int := Binary64.of_int;
  s_is_zero := Binary64.is_zero
}.

(* ===================================================================== *)
(** * Tensors and strided slicing *)
(* ===================================================================== *)

Module Tensor.

Section Tensors.
Variable R : Type.

Definition t1 := list R.
Definition t2 := list t1.
Definition t3 := list t2.
Definition t4 := list t3.
Definition t5 := list t4.

(** Elements at positions 0, k, 2k, ... ([skip] is the number of
    elements still to drop before the next one is kept). *)
Fixpoint every_from (A : Type) (k skip : nat) (l : list A) : list A :=
  match l with
  | [] => []
  | x :: rest =>
      match skip with
      | O => x :: every_from k (Nat.pred k) rest
      | S j => every_from k j rest
      end
  end.

Definition every (A : Type) (k : nat) (l : list A) : list A :=
  every_from k 0 l.

(** [out[:, ::s, ::s, ::t]] on a 4-dimensional tensor.  The framework
    refuses a step that is not positive before it looks at the data. *)
Definition subsample (s t : Z) (out : t4) : result t4 :=
  if (s <=? 0) || (t <=? 0) then Raise ValueError
  else
    Ok (map (fun vol : t3 =>
               map (fun plane : t2 => map (every (Z.to_nat t)) (every (Z.to_nat s) plane))
                   (every (Z.to_nat s) vol))
            out).

(** [x[..., 0, -1]]-style element selection used for the initial
    condition: [a[:, :, :, 0, -1]]. *)
Definition first_last (row : t2) : result R :=
  match getitem row 0 with
  | Ok c => getitem c (-1)
  | Raise e => Raise e
  end.

Fixpoint traverse (A B : Type) (f : A -> result B) (l : list A) : result (list B) :=
  match l with
  | [] => Ok []
  | x :: rest =>
      match f x with
      | Raise e => Raise e
      | Ok y => match traverse f rest with
                | Raise e => Raise e
                | Ok ys => Ok (y :: ys)
                end
      end
  end.

Definition initial_condition (a : t5) : result t3 :=
  traverse (traverse (traverse first_last)) a.

(** Shapes: [has_shape4 x [b; n1; n2; n3]]. *)
Definition dim_is (A : Type) (n : Z) (l : list A) : bool := len l =? n.

Definition has_shape4 (x : t4) (shape : list Z) : bool :=
  match shape with
  | [b; n1; n2; n3] =>
      dim_is b x &&
      forallb (fun vol : t3 =>
        dim_is n1 vol &&
        forallb (fun plane : t2 =>
          dim_is n2 plane && forallb (fun row : t1 => dim_is n3 row) plane) vol) x
  | _ => false
  end.

(** [x[b, i, j, k]] for indices that are not negative. *)
Definition at4 (x : t4) (b i j k : nat) : option R :=
  match nth_error x b with
  | Some vol =>
      match nth_error vol i with
      | Some plane =>
          match nth_error plane j with
          | Some row => nth_error row k
          | None => None
          end
      | None => None
      end
  | None => None
  end.

End Tensors.

End Tensor.

Import Tensor.

(* ===================================================================== *)
(** * Configuration, command line, environment *)
(* ===================================================================== *)

(** [config['data']] *)
Record data_config (R : Type) : Type := {
  paths : list string;
  Re : R;
  t_duration : R;
  raw_res : list Z;
  pde_res : list Z;
  data_res : list Z;
  n_data_samples : Z;
  n_test_samples : Z;
  offset : Z;
  testoffset : Z
}.

(** [config['model']] *)
Record model_config (R : Type) : Type := {
  modes1 : list Z;
  modes2 : list Z;
  modes3 : list Z;
  fc_dim : Z;
  layers : list Z;
  act : string;
  pad_ratio : R;
  num_pad : Z
}.

(** [config['train']] *)
Record train_config (R : Type) : Type := {
  batchsize : Z;
  base_lr : R;
  milestones : list Z;
  scheduler_gamma : R;
  ic_loss : R;
  f_loss : R;
  xy_loss : R;
  num_iter : Z;
  save_step : Z;
  eval_step : Z
}.

(** [config['test']] *)
Record test_config : Type := {
  test_batchsize : Z;
  test_data_res : list Z
}.

(** [config['log']] *)
Record log_config : Type := {
  logdir : string;
  project : string;
  entity : string;
  group : string
}.

(** The configuration dictionary.  [cfg_seed] and [cfg_num_params] are the
    two keys [subprocess] adds to it. *)
Record config (R : Type) : Type := {
  cfg_data : data_config R;
  cfg_model : model_config R;
  cfg_train : train_config R;
  cfg_test : test_config;
  cfg_log : log_config;
  cfg_seed : option Z;
  cfg_num_params : option Z
}.

Definition set_seed R (c : config R) (seed : Z) : config R :=
  {| cfg_data := cfg_data c; cfg_model := cfg_model c; cfg_train := cfg_train c;
     cfg_test := cfg_test c; cfg_log := cfg_log c;
     cfg_seed := Some seed; cfg_num_params := cfg_num_params c |}.

Definition set_num_params R (c : config R) (n : Z) : config R :=
  {| cfg_data := cfg_data c; cfg_model := cfg_model c; cfg_train := cfg_train c;
     cfg_test := cfg_test c; cfg_log := cfg_log c;
     cfg_seed := cfg_seed c; cfg_num_params := Some n |}.

(** The parsed command line ([--seed] already defaulted by the caller). *)
Record cli_args : Type := {
  a_config : string;
  a_log : bool;
  a_seed : Z;
  a_ckpt : option string;
  a_test : bool
}.

(** The command line as [argparse] returns it (lines 224-230):
    [--seed] may be left out. *)
Record namespace : Type := {
  n_config : string;
  n_log : bool;
  n_seed : option Z;
  n_ckpt : option string;
  n_test : bool
}.

(** The seeds the three random-number sources were last given
    ([None]: never seeded by this process). *)
Record rng_state : Type := {
  rng_torch : option Z;
  rng_python : option Z;
  rng_cuda : option Z
}.

(** The keyword arguments of a [KFDataset(...)] construction. *)
Record kf_args (R : Type) : Type := {
  k_paths : list string;
  k_raw_res : list Z;
  k_data_res : list Z;
  k_pde_res : list Z;
  k_n_samples : Z;
  k_offset : Z;
  k_t_duration : R
}.

(** Lines 64-65: the two subsampling strides. *)
Definition strides R (d : data_config R) : result (Z * Z) :=
  match getitem (pde_res d) 0 with
  | Raise e => Raise e
  | Ok p0 =>
  match getitem (data_res d) 0 with
  | Raise e => Raise e
  | Ok d0 =>
  match floordiv p0 d0 with
  | Raise e => Raise e
  | Ok s_step =>
  match getitem (pde_res d) 2 with
  | Raise e => Raise e
  | Ok p2 =>
  match getitem (data_res d) 2 with
  | Raise e => Raise e
  | Ok d2 =>
  match floordiv (p2 - 1) (d2 - 1) with
  | Raise e => Raise e
  | Ok t_step => Ok (s_step, t_step)
  end end end end end end.

(** Lines 64-65 followed by line 100: [out[:, ::s_step, ::s_step, ::t_step]]
    with the strides of the configuration. *)
Definition subsampled R (d : data_config R) (out : t4 R) : result (t4 R) :=
  match strides d with
  | Ok st => subsample (fst st) (snd st) out
  | Raise e => Raise e
  end.

(** Lines 67-68 and 133: where checkpoints go. *)
Definition ckpt_dir (l : log_config) : string :=
  path_join (path_join "exp" (logdir l)) "ckpts".

Definition ckpt_path (l : log_config) (e : Z) : string :=
  path_join (ckpt_dir l) ("model-" ++ str_of_int e ++ ".pt")%string.

(* ===================================================================== *)
(** * Effects *)
(* ===================================================================== *)

Section Effects.

Variable R : Type.

(** State of the collaborators that the driver stores or passes around:
    network parameters and optimiser state. *)
Variables params opt_state : Type.

(** What a checkpoint file holds. *)
Record ckpt : Type := {
  ck_model : params;
  ck_optim : opt_state
}.

(** Where [model(a)] is called from. *)
Inductive call_site : Type :=
| InTrain (e : Z)
| InEval.

(** Effects, in program order. *)
Inductive event : Type :=
| EvManualSeed (seed : Z)
| EvRandomSeed (seed : Z)
| EvCudaSeedAll (seed : Z)
| EvNewModel (m : model_config R) (rng : rng_state)
| EvLoadCkpt (path : string)
| EvPrint (s : string)
| EvPrintTestErr (x : R)
| EvNewDataset (k : kf_args R)
| EvMakedirs (p : string)
| EvWandbInit (c : config R)
| EvWandbLog (d : dict R)
| EvWandbFinish
| EvForward (site : call_site) (training grad : bool)
| EvResidual
| EvDescribe (d : dict R)
| EvSaveCkpt (path : string) (c : ckpt).

(** The model object, the autograd switch, and whatever else the caller
    owns ([O]: nothing in test mode, the trainer's objects in train mode). *)
Record world (O : Type) : Type := {
  w_params : params;
  w_training : bool;
  w_grad_enabled : bool;
  w_rest : O
}.

Record outcome (O A : Type) : Type := {
  out_events : list event;
  out_world : world O;
  out_res : result A
}.

(** State, exceptions and an event log. *)
Definition M (O A : Type) : Type := world O -> outcome O A.

Definition ret O A (a : A) : M O A :=
  fun w => {| out_events := []; out_world := w; out_res := Ok a |}.

Definition bind O A B (m : M O A) (k : A -> M O B) : M O B :=
  fun w =>
    let o := m w in
    match out_res o with
    | Ok a =>
        let o' := k a (out_world o) in
        {| out_events := out_events o ++ out_events o';
           out_world := out_world o';
           out_res := out_res o' |}
    | Raise e =>
        {| out_events := out_events o; out_world := out_world o; out_res := Raise e |}
    end.

(** [prepend evs o]: the outcome [o], reached after the events [evs]. *)
Definition prepend O A (evs : list event) (o : outcome O A) : outcome O A :=
  {| out_events := evs ++ out_events o; out_world := out_world o; out_res := out_res o |}.

(** What [bind] does once its first part has run. *)
Definition continue O A B (evs : list event) (w : world O) (r : result A)
    (k : A -> M O B) : outcome O B :=
  match r with
  | Ok a => prepend evs (k a w)
  | Raise e => {| out_events := evs; out_world := w; out_res := Raise e |}
  end.

Definition lift O A (r : result A) : M O A :=
  fun w => {| out_events := []; out_world := w; out_res := r |}.

Definition emit O (ev : event) : M O unit :=
  fun w => {| out_events := [ev]; out_world := w; out_res := Ok tt |}.

Definition get O : M O (world O) :=
  fun w => {| out_events := []; out_world := w; out_res := Ok w |}.

Definition modify O (f : world O -> world O) : M O unit :=
  fun w => {| out_events := []; out_world := f w; out_res := Ok tt |}.

Definition when O (b : bool) (m : M O unit) : M O unit :=
  if b then m else ret tt.

Fixpoint for_each O A (l : list A) (body : A -> M O unit) : M O unit :=
  match l with
  | [] => ret tt
  | x :: rest => bind (body x) (fun _ => for_each rest body)
  end.

Definition set_training O (b : bool) (w : world O) : world O :=
  {| w_params := w_params w; w_training := b;
     w_grad_enabled := w_grad_enabled w; w_rest := w_rest w |}.

Definition set_grad_enabled O (b : bool) (w : world O) : world O :=
  {| w_params := w_params w; w_training := w_training w;
     w_grad_enabled := b; w_rest := w_rest w |}.

(** The [@torch.no_grad()] decorator: gradient tracking is switched off
    for the call and the previous setting comes back afterwards, also
    when the call raises. *)
Definition no_grad O A (m : M O A) : M O A :=
  fun w =>
    let o := m (set_grad_enabled false w) in
    {| out_events := out_events o;
       out_world := set_grad_enabled (w_grad_enabled w) (out_world o);
       out_res := out_res o |}.

End Effects.

Arguments EvManualSeed {R params opt_state} seed.
Arguments EvRandomSeed {R params opt_state} seed.
Arguments EvCudaSeedAll {R params opt_state} seed.
Arguments EvNewModel {R params opt_state} m rng.
Arguments EvLoadCkpt {R params opt_state} path.
Arguments EvPrint {R params opt_state} s.
Arguments EvPrintTestErr {R params opt_state} x.
Arguments EvNewDataset {R params opt_state} k.
Arguments EvMakedirs {R params opt_state} p.
Arguments EvWandbInit {R params opt_state} c.
Arguments EvWandbLog {R params opt_state} d.
Arguments EvWandbFinish {R params opt_state}.
Arguments EvForward {R params opt_state} site training grad.
Arguments EvResidual {R params opt_state}.
Arguments EvDescribe {R params opt_state} d.
Arguments EvSaveCkpt {R params opt_state} path c.
Arguments ret {R params opt_state O A} a.
Arguments lift {R params opt_state O A} r.
Arguments get {R params opt_state O}.
Arguments modify {R params opt_state O} f.
Arguments when {R params opt_state O} b m.
Arguments no_grad {R params opt_state O A} m.
Arguments bind {R params opt_state O A B} m k.
Arguments emit {R params opt_state O} ev.
Arguments for_each {R params opt_state O A} l body.
Arguments prepend {R params opt_state O A} evs o.
Arguments continue {R params opt_state O A B} evs w r k.

Declare Scope monad_scope.
Delimit Scope monad_scope with monad.
Notation "x <- c1 ;; c2" := (bind c1 (fun x => c2))
  (at level 61, c1 at next level, right associativity) : monad_scope.
Notation "c1 ;; c2" := (bind c1 (fun _ => c2))
  (at level 61, right associativity) : monad_scope.

(* ===================================================================== *)
(** * The program *)
(* ===================================================================== *)

Section Program.

Local Open Scope monad_scope.

Context {R : Type} {SR : Scalar R}.

(** State of the collaborators: network parameters, optimiser and
    scheduler state, gradients, the forcing field, datasets and the
    shuffled training loader. *)
Variables params opt_state sched_state grads forcing dataset train_loader : Type.

(** A batch [(u, a)]: ground truth and network input. *)
Definition batch : Type := (t4 R * t5 R)%type.

Definition criterion : Type := t4 R -> t4 R -> R.

(** The routines imported from [models], [train_utils] and the tensor
    framework.  [forward p training a] is [model(a)] with parameters [p]
    and [model.training = training]; [LpLoss k] is the loss object built
    with the [size_average] keyword [k]; [sample_data l i] is the [i]-th
    batch drawn from the endless generator over the shuffled loader. *)
Record externals : Type := {
  FNO3d : model_config R -> rng_state -> params;
  forward : params -> bool -> t5 R -> t4 R;
  count_params : params -> Z;
  LpLoss : option bool -> criterion;
  PINO_loss3d : t4 R -> t3 R -> forcing -> R -> R -> R * R;
  get_forcing : Z -> forcing;
  backward : params -> bool -> batch -> R -> grads;
  optimizer_step : opt_state -> grads -> params -> opt_state * params;
  scheduler_step : sched_state -> opt_state -> sched_state * opt_state;
  Adam : params -> R -> opt_state;
  MultiStepLR : opt_state -> list Z -> R -> sched_state;
  KFDataset : kf_args R -> dataset;
  dataset_len : dataset -> Z;
  DataLoader : dataset -> Z -> list batch;
  DataLoader_shuffle : dataset -> Z -> rng_state -> train_loader;
  sample_data : train_loader -> nat -> batch
}.

(** What the process finds around it. *)
Record environment : Type := {
  cuda_available : bool;
  wandb_installed : bool;
  torch_load : string -> option (ckpt params opt_state)
}.

(** The objects [train_ns] owns besides the model: optimiser, scheduler
    and the position of the [u_loader] generator. *)
Record trainer : Type := {
  tr_opt : opt_state;
  tr_sched : sched_state;
  tr_draws : nat
}.

Let Mo := M R params opt_state.

Variable X : externals.
Variable env : environment.

(** ** [eval_ns] (lines 27-40) *)

(** [out = model(a)] *)
Definition call_model O (site : call_site) (a : t5 R) : Mo O (t4 R) :=
  w <- get ;;
  emit (EvForward site (w_training w) (w_grad_enabled w)) ;;
  ret (forward X (w_params w) (w_training w) a).

(** Lines 31-38: the loop over [val_loader], [val_err] accumulating. *)
Fixpoint eval_loop O (crit : criterion) (val_loader : list batch) (val_err : R)
  : Mo O R :=
  match val_loader with
  | [] => ret val_err
  | (u, a) :: rest =>
      out <- call_model InEval a ;;
      let val_loss := crit out u in
      eval_loop crit rest (s_add val_err val_loss)
  end.

Definition eval_ns O (val_loader : list batch) (crit : criterion) : Mo O R :=
  no_grad
    (modify (set_training false) ;;
     val_err <- eval_loop crit val_loader s_zero ;;
     avg_err <- lift (truediv_int val_err (len val_loader)) ;;
     ret avg_err).

(** The criterion value of one batch [(u, a)] under parameters [p] with
    the model in evaluation mode: [criterion(model(a), u)]. *)
Definition batch_error (crit : criterion) (p : params) (b : batch) : R :=
  crit (forward X p false (snd b)) (fst b).

(** Left-to-right sum from zero, as [val_err] accumulates. *)
Definition sum_scalars (l : list R) : R := fold_left s_add l s_zero.

(** The mean over the number of batches. *)
Definition mean_batch_error (crit : criterion) (p : params) (l : list batch) : R :=
  s_div (sum_scalars (map (batch_error crit p) l)) (s_of_int (len l)).

(** ** [train_ns] (lines 43-138) *)

(** Line 93: [next(u_loader)] *)
Definition next_batch (u_loader : train_loader) : Mo trainer batch :=
  w <- get ;;
  modify (fun w =>
    {| w_params := w_params w; w_training := w_training w;
       w_grad_enabled := w_grad_enabled w;
       w_rest := {| tr_opt := tr_opt (w_rest w); tr_sched := tr_sched (w_rest w);
                    tr_draws := S (tr_draws (w_rest w)) |} |}) ;;
  ret (sample_data X u_loader (tr_draws (w_rest w))).

(** Line 86: [u_loader = sample_data(train_u_loader)], a fresh generator. *)
Definition new_generator : Mo trainer unit :=
  modify (fun w =>
    {| w_params := w_params w; w_training := w_training w;
       w_grad_enabled := w_grad_enabled w;
       w_rest := {| tr_opt := tr_opt (w_rest w); tr_sched := tr_sched (w_rest w);
                    tr_draws := O |} |}).

(** Lines 114-116: [loss.backward(); optimizer.step(); scheduler.step()] *)
Definition descend (b : batch) (loss : R) : Mo trainer unit :=
  modify (fun w =>
    let g := backward X (w_params w) (w_training w) b loss in
    let op := optimizer_step X (tr_opt (w_rest w)) g (w_params w) in
    let so := scheduler_step X (tr_sched (w_rest w)) (fst op) in
    {| w_params := snd op; w_training := w_training w;
       w_grad_enabled := w_grad_enabled w;
       w_rest := {| tr_opt := snd so; tr_sched := fst so;
                    tr_draws := tr_draws (w_rest w) |} |}).

(** Line 134: [save_ckpt(ckpt_path, model, optimizer)] *)
Definition save_ckpt (path : string) : Mo trainer unit :=
  w <- get ;;
  emit (EvSaveCkpt path {| ck_model := w_params w; ck_optim := tr_opt (w_rest w) |}).

(** Lines 104-111: the physics terms and the log entries they leave. *)
Definition physics_losses (config : config R) (forcing_ : forcing) (v : R)
    (out : t4 R) (a : t5 R) : Mo trainer (R * R * dict R) :=
  if negb (s_is_zero (f_loss (cfg_train config))) then
    u0 <- lift (initial_condition a) ;;
    emit EvResidual ;;
    let r := PINO_loss3d X out u0 forcing_ v (t_duration (cfg_data config)) in
    let loss_ic := fst r in
    let loss_f := snd r in
    ret (loss_ic, loss_f, dict_set (dict_set [] "IC" loss_ic) "PDE" loss_f)
  else
    ret (s_zero, s_zero, []).

(** Line 112 *)
Definition total_loss (tc : train_config R) (data_loss loss_f loss_ic : R) : R :=
  s_add (s_add (s_mul data_loss (xy_loss tc)) (s_mul loss_f (f_loss tc)))
        (s_mul loss_ic (ic_loss tc)).

(** Lines 88-134: one iteration of the training loop.  ([optimizer.zero_grad()]
    of line 91 only clears the gradients that line 114 computes afresh;
    gradients are not kept between iterations here.) *)
Definition train_iter (train_u_loader : train_loader) (val_loader : list batch)
    (config : config R) (args : cli_args)
    (v : R) (s_step t_step : Z) (forcing_ : forcing) (lploss : criterion)
    (e : Z) : Mo trainer unit :=
  let tc := cfg_train config in
  b <- next_batch train_u_loader ;;
  let u := fst b in
  let a := snd b in
  out <- call_model (InTrain e) a ;;
  u_pred <- lift (subsample s_step t_step out) ;;
  let data_loss := lploss u_pred u in
  ph <- physics_losses config forcing_ v out a ;;
  let loss_ic := fst (fst ph) in
  let loss_f := snd (fst ph) in
  let log_dict := snd ph in
  let loss := total_loss tc data_loss loss_f loss_ic in
  descend b loss ;;
  let log_dict := dict_set log_dict "train loss" loss in
  let log_dict := dict_set log_dict "data" data_loss in
  r <- lift (mod_ e (eval_step tc)) ;;
  log_dict <- (if r =? 0 then
                 eval_err <- eval_ns val_loader lploss ;;
                 ret (dict_set log_dict "val error" eval_err)
               else ret log_dict) ;;
  emit (EvDescribe log_dict) ;;
  when (wandb_installed env && a_log args) (emit (EvWandbLog log_dict)) ;;
  r <- lift (mod_ e (save_step tc)) ;;
  when (r =? 0) (save_ckpt (ckpt_path (cfg_log config) e)).

Definition train_ns (train_u_loader : train_loader) (val_loader : list batch)
    (config : config R) (args : cli_args) : Mo trainer unit :=
  let dc := cfg_data config in
  let tc := cfg_train config in
  v <- lift (truediv s_one (Re dc)) ;;
  st <- lift (strides dc) ;;
  let s_step := fst st in
  let t_step := snd st in
  emit (EvMakedirs (ckpt_dir (cfg_log config))) ;;
  let lploss := LpLoss X (Some true) in
  S <- lift (getitem (pde_res dc) 0) ;;
  let forcing_ := get_forcing X S in
  when (wandb_installed env && a_log args) (emit (EvWandbInit config)) ;;
  new_generator ;;
  for_each (range (num_iter tc))
           (train_iter train_u_loader val_loader config args
                       v s_step t_step forcing_ lploss) ;;
  when (wandb_installed env && a_log args) (emit EvWandbFinish).

(** ** [subprocess] (lines 141-217) *)

(** A freshly constructed module is in training mode and gradient
    tracking is on. *)
Definition init_world O (model : params) (rest : O) : world params O :=
  {| w_params := model; w_training := true; w_grad_enabled := true; w_rest := rest |}.

(** Lines 146-152: seeding. *)
Definition seed_everything (seed : Z) : list (event R params opt_state) * rng_state :=
  ([EvManualSeed seed; EvRandomSeed seed]
     ++ (if cuda_available env then [EvCudaSeedAll seed] else []),
   {| rng_torch := Some seed;
      rng_python := Some seed;
      rng_cuda := if cuda_available env then Some seed else None |}).

(** Lines 166-170: the optional warm start ([if args.ckpt:]). *)
Definition load_weights (args : cli_args) (model : params)
  : list (event R params opt_state) * result params :=
  match a_ckpt args with
  | None => ([], Ok model)
  | Some ckpt_path =>
      if is_empty ckpt_path then ([], Ok model)
      else
        match torch_load env ckpt_path with
        | None => ([EvLoadCkpt ckpt_path], Raise FileNotFoundError)
        | Some ck =>
            ([EvLoadCkpt ckpt_path;
              EvPrint ("Weights loaded from " ++ ckpt_path)%string],
             Ok (ck_model ck))
        end
  end.

(** Lines 173-184: test mode. *)
Definition run_test (config : config R) (model : params)
  : list (event R params opt_state) * result unit :=
  let batchsize := test_batchsize (cfg_test config) in
  let testset_args :=
    {| k_paths := paths (cfg_data config);
       k_raw_res := raw_res (cfg_data config);
       k_data_res := test_data_res (cfg_test config);
       k_pde_res := test_data_res (cfg_test config);
       k_n_samples := n_test_samples (cfg_data config);
       k_offset := testoffset (cfg_data config);
       k_t_duration := t_duration (cfg_data config) |} in
  let testset := KFDataset X testset_args in
  let testloader := DataLoader X testset batchsize in
  let crit := LpLoss X None in
  let o := eval_ns testloader crit (init_world model tt) in
  match out_res o with
  | Ok test_err =>
      ([EvNewDataset testset_args] ++ out_events o ++ [EvPrintTestErr test_err], Ok tt)
  | Raise e => ([EvNewDataset testset_args] ++ out_events o, Raise e)
  end.

(** Lines 186-216: train mode. *)
Definition run_train (config : config R) (args : cli_args) (rng : rng_state)
    (model : params) : list (event R params opt_state) * result unit :=
  let batchsize := batchsize (cfg_train config) in
  let u_set_args :=
    {| k_paths := paths (cfg_data config);
       k_raw_res := raw_res (cfg_data config);
       k_data_res := data_res (cfg_data config);
       k_pde_res := pde_res (cfg_data config);
       k_n_samples := n_data_samples (cfg_data config);
       k_offset := offset (cfg_data config);
       k_t_duration := t_duration (cfg_data config) |} in
  let u_set := KFDataset X u_set_args in
  let u_loader := DataLoader_shuffle X u_set batchsize rng in
  let valset_args :=
    {| k_paths := paths (cfg_data config);
       k_raw_res := raw_res (cfg_data config);
       k_data_res := test_data_res (cfg_test config);
       k_pde_res := test_data_res (cfg_test config);
       k_n_samples := n_test_samples (cfg_data config);
       k_offset := testoffset (cfg_data config);
       k_t_duration := t_duration (cfg_data config) |} in
  let valset := KFDataset X valset_args in
  let val_loader := DataLoader X valset batchsize in
  let optimizer := Adam X model (base_lr (cfg_train config)) in
  let scheduler :=
    MultiStepLR X optimizer (milestones (cfg_train config))
                (scheduler_gamma (cfg_train config)) in
  let o := train_ns u_loader val_loader config args
             (init_world model
                {| tr_opt := optimizer; tr_sched := scheduler; tr_draws := O |}) in
  ([EvNewDataset u_set_args; EvNewDataset valset_args;
    EvPrint ("Train set: " ++ str_of_int (dataset_len X u_set)
             ++ "; Test set: " ++ str_of_int (dataset_len X valset) ++ ";")%string]
     ++ out_events o,
   out_res o).

Definition subprocess (args : cli_args) (config : config R)
  : list (event R params opt_state) * result unit :=
  let config := set_seed config (a_seed args) in
  let seed := a_seed args in
  let seeded := seed_everything seed in
  let rng := snd seeded in
  let model := FNO3d X (cfg_model config) rng in
  let num_params := count_params X model in
  let config := set_num_params config num_params in
  let built :=
    fst seeded
      ++ [EvNewModel (cfg_model config) rng;
          EvPrint ("Number of parameters: " ++ str_of_int num_params)%string] in
  let loaded := load_weights args model in
  match snd loaded with
  | Raise e => (built ++ fst loaded, Raise e)
  | Ok model =>
      let run := if a_test args then run_test config model
                 else run_train config args rng model in
      match snd run with
      | Ok _ => (built ++ fst loaded ++ fst run ++ [EvPrint "Done!"], Ok tt)
      | Raise e => (built ++ fst loaded ++ fst run, Raise e)
      end
  end.

(** ** [__main__] (lines 221-233) *)

(** Lines 231-232: a seed left out is drawn with
    [random.randint(0, 100000)]; [randint] is that routine. *)
Definition default_seed (randint : Z -> Z -> Z) (ns : namespace) : cli_args :=
  {| a_config := n_config ns;
     a_log := n_log ns;
     a_seed := match n_seed ns with
               | Some seed => seed
               | None => randint 0 100000
               end;
     a_ckpt := n_ckpt ns;
     a_test := n_test ns |}.

(** Lines 221-233.  (Line 222 sets a cuDNN tuning flag that none of the
    routines modelled here reads.) *)
Definition main (randint : Z -> Z -> Z) (ns : namespace) (config : config R)
  : list (event R params opt_state) * result unit :=
  subprocess (default_seed randint ns) config.
End Program.

Arguments externals : clear implicits.
Arguments environment : clear implicits.
Arguments batch : clear implicits.
Arguments criterion : clear implicits.

(* ===================================================================== *)
(** * Observations on runs *)
(* ===================================================================== *)

(** The number of positions [0, k, 2k, ...] below [n]. *)
Definition slice_len (n k : Z) : Z := (n + k - 1) / k.



(** The subsampled grid does not line up with the data grid.  Along
    space it has [n1] points where the data has [d0]; along time it has
    [n3] where the data has [d2], its last sample at index
    [(n3 - 1) * t_step] of a PDE grid whose final index is [p2 - 1]. *)
Definition misaligned (d0 d2 p2 t_step n1 n3 : Z) : Prop :=
  d0 < n1 \/ d2 < n3 \/ (n3 = d2 /\ (d2 - 1) * t_step < p2 - 1).

Section Observations.

Context {R : Type} {SR : Scalar R}.
Variables params opt_state sched_state grads forcing dataset train_loader : Type.

(** A log record accounts for the total loss: it holds the data loss,
    and the total is the weighted sum of line 112 over that data loss and
    the two physics terms, which are the logged ['IC'] and ['PDE'] values
    when the residual weight is not zero and plain zeros (with nothing
    logged) when it is. *)
Definition loss_breakdown (tc : train_config R) (d : dict R) : Prop :=
  exists data_loss loss_f loss_ic : R,
    dict_get d "data" = Some data_loss /\
    dict_get d "train loss" =
      Some (s_add (s_add (s_mul data_loss (xy_loss tc)) (s_mul loss_f (f_loss tc)))
                  (s_mul loss_ic (ic_loss tc))) /\
    (if s_is_zero (f_loss tc)
     then loss_f = s_zero /\ loss_ic = s_zero /\
          dict_get d "IC" = None /\ dict_get d "PDE" = None
     else dict_get d "PDE" = Some loss_f /\ dict_get d "IC" = Some loss_ic).

(** A log record whose total is the weighted data loss alone: the total
    logged is line 112 over the data loss and the two zeros of line 111,
    and it is the same number as [data_loss*xy_weight]. *)
Definition data_only (tc : train_config R) (d : dict R) : Prop :=
  exists data_loss : R,
    dict_get d "data" = Some data_loss /\
    dict_get d "train loss" = Some (total_loss tc data_loss s_zero s_zero) /\
    same_number (total_loss tc data_loss s_zero s_zero) (s_mul data_loss (xy_loss tc)) /\
    dict_get d "IC" = None /\ dict_get d "PDE" = None.
(** The same routines with another PDE-residual routine. *)
Definition with_residual
    (X : externals R params opt_state sched_state grads forcing dataset train_loader)
    (residual : t4 R -> t3 R -> forcing -> R -> R -> R * R)
  : externals R params opt_state sched_state grads forcing dataset train_loader :=
  {| FNO3d := FNO3d X;
     forward := forward X;
     count_params := count_params X;
     LpLoss := LpLoss X;
     PINO_loss3d := residual;
     get_forcing := get_forcing X;
     backward := backward X;
     optimizer_step := optimizer_step X;
     scheduler_step := scheduler_step X;
     Adam := Adam X;
     MultiStepLR := MultiStepLR X;
     KFDataset := KFDataset X;
     dataset_len := dataset_len X;
     DataLoader := DataLoader X;
     DataLoader_shuffle := DataLoader_shuffle X;
     sample_data := sample_data X |}.

(** The training iterations and the checkpoint writes of a run, in order. *)
Inductive mark : Type :=
| Iteration (e : Z)
| Checkpoint (path : string).

Definition mark_of (ev : event R params opt_state) : list mark :=
  match ev with
  | EvForward (InTrain e) _ _ => [Iteration e]
  | EvSaveCkpt path _ => [Checkpoint path]
  | _ => []
  end.

Definition timeline (evs : list (event R params opt_state)) : list mark :=
  flat_map mark_of evs.

(** What the iterations [es] leave on the timeline when a checkpoint
    goes to [path e] at every [e] with [e % save_step == 0]. *)
Definition periodic_saves (path : Z -> string) (save_step : Z) (es : list Z) : list mark :=
  flat_map (fun e => Iteration e :: (if e mod save_step =? 0 then [Checkpoint (path e)] else []))
           es.

(** A checkpoint written holds the parameters and the optimiser state
    of the world [w]. *)
Definition saves_state (w : world params (trainer opt_state sched_state))
    (ev : event R params opt_state) : Prop :=
  match ev with
  | EvSaveCkpt _ c => c = {| ck_model := w_params w; ck_optim := tr_opt (w_rest w) |}
  | _ => True
  end.

(** Training-loop forward passes after iteration 0 see evaluation mode. *)
Definition eval_mode_after_first (ev : event R params opt_state) : Prop :=
  match ev with
  | EvForward (InTrain e) training _ => 1 <= e -> training = false
  | _ => True
  end.

(** Log records satisfy [P]. *)
Definition logs_satisfy (P : dict R -> Prop) (ev : event R params opt_state) : Prop :=
  match ev with
  | EvDescribe d => P d
  | EvWandbLog d => P d
  | _ => True
  end.

(** The kinds of effect the training loop has. *)
Definition training_event (ev : event R params opt_state) : bool :=
  match ev with
  | EvMakedirs _ | EvWandbInit _ | EvWandbLog _ | EvWandbFinish
  | EvForward _ _ _ | EvResidual | EvDescribe _ | EvSaveCkpt _ _ => true
  | _ => false
  end.

(** The log records shown on the progress bar, in order, and their
    number. *)
Definition log_of (ev : event R params opt_state) : list (dict R) :=
  match ev with EvDescribe d => [d] | _ => [] end.

Definition logs (evs : list (event R params opt_state)) : list (dict R) :=
  flat_map log_of evs.

Definition log_count (evs : list (event R params opt_state)) : nat :=
  List.length (logs evs).

(** The mode each training-loop forward pass was made in, by iteration. *)
Definition train_mode_of (ev : event R params opt_state) : list (Z * bool) :=
  match ev with
  | EvForward (InTrain e) training _ => [(e, training)]
  | _ => []
  end.

Definition is_residual (ev : event R params opt_state) : bool :=
  match ev with EvResidual => true | _ => false end.

Definition is_cuda_seed (ev : event R params opt_state) : bool :=
  match ev with EvCudaSeedAll _ => true | _ => false end.

Definition is_seed (ev : event R params opt_state) : bool :=
  match ev with
  | EvManualSeed _ | EvRandomSeed _ | EvCudaSeedAll _ => true
  | _ => false
  end.

(** The warm start, if one is asked for, finds its file. *)
Definition checkpoint_found (env : environment params opt_state) (args : cli_args) : bool :=
  match a_ckpt args with
  | None => true
  | Some path =>
      is_empty path || match torch_load env path with Some _ => true | None => false end
  end.

(** The dataset both the test set and the validation set are built as:
    the test samples, at the test resolution for data and PDE alike. *)
Definition evaluation_dataset (c : config R) : kf_args R :=
  {| k_paths := paths (cfg_data c);
     k_raw_res := raw_res (cfg_data c);
     k_data_res := test_data_res (cfg_test c);
     k_pde_res := test_data_res (cfg_test c);
     k_n_samples := n_test_samples (cfg_data c);
     k_offset := testoffset (cfg_data c);
     k_t_duration := t_duration (cfg_data c) |}.

(** The training set: data and PDE resolutions of the data section. *)
Definition training_dataset (c : config R) : kf_args R :=
  {| k_paths := paths (cfg_data c);
     k_raw_res := raw_res (cfg_data c);
     k_data_res := data_res (cfg_data c);
     k_pde_res := pde_res (cfg_data c);
     k_n_samples := n_data_samples (cfg_data c);
     k_offset := offset (cfg_data c);
     k_t_duration := t_duration (cfg_data c) |}.

(** The dataset constructions of a run, in order. *)
Definition dataset_of (ev : event R params opt_state) : list (kf_args R) :=
  match ev with EvNewDataset k => [k] | _ => [] end.

Definition datasets_built (evs : list (event R params opt_state)) : list (kf_args R) :=
  flat_map dataset_of evs.

(** A dataset whose samples come at one resolution for both uses. *)
Definition single_resolution (res : list Z) (k : kf_args R) : Prop :=
  k_data_res k = res /\ k_pde_res k = res.

(** The keys of the log record of iteration [e], in the order they are
    set (lines 107-122). *)
Definition log_keys (tc : train_config R) (e : Z) : list string :=
  (if s_is_zero (f_loss tc) then [] else ["IC"; "PDE"])
    ++ ["train loss"; "data"]
    ++ (if e mod eval_step tc =? 0 then ["val error"] else []).

(** The calls to the experiment tracker among the effects, in order. *)
Definition is_wandb (ev : event R params opt_state) : bool :=
  match ev with
  | EvWandbInit _ | EvWandbLog _ | EvWandbFinish => true
  | _ => false
  end.

Definition wandb_calls (evs : list (event R params opt_state)) : list (event R params opt_state) :=
  filter is_wandb evs.

(** A forward pass of the training loop is made under gradient mode
    [g0], one of the evaluation loop with gradient tracking off. *)
Definition grad_mode_ok (g0 : bool) (ev : event R params opt_state) : Prop :=
  match ev with
  | EvForward (InTrain _) _ g => g = g0
  | EvForward InEval _ g => g = false
  | _ => True
  end.

(** The kinds of effect one iteration of the training loop has. *)
Definition loop_event (ev : event R params opt_state) : bool :=
  match ev with
  | EvForward _ _ _ | EvResidual | EvDescribe _ | EvWandbLog _ | EvSaveCkpt _ _ => true
  | _ => false
  end.

(** The gradient mode each training-loop forward pass was made under, by
    iteration. *)
Definition train_grad_of (ev : event R params opt_state) : list (Z * bool) :=
  match ev with
  | EvForward (InTrain e) _ grad => [(e, grad)]
  | _ => []
  end.

(** The paths checkpoints were written to, in order. *)
Definition saved_path (ev : event R params opt_state) : list string :=
  match ev with EvSaveCkpt p _ => [p] | _ => [] end.

Definition checkpoints_written (evs : list (event R params opt_state)) : list string :=
  flat_map saved_path evs.

(** The last line [subprocess] prints. *)
Definition is_done (ev : event R params opt_state) : bool :=
  match ev with EvPrint s => String.eqb s "Done!" | _ => false end.

(** What a process that only evaluates may do: build the model and the
    data, load weights, print, and make forward passes in evaluation mode
    with gradient tracking off. *)
Definition inference_only (ev : event R params opt_state) : bool :=
  match ev with
  | EvForward InEval false false => true
  | EvForward _ _ _ => false
  | EvMakedirs _ | EvWandbInit _ | EvWandbLog _ | EvWandbFinish
  | EvResidual | EvDescribe _ | EvSaveCkpt _ _ => false
  | _ => true
  end.

(** The configuration the tracker is given, if it is given one. *)
Definition tracked_config (c : config R) (ev : event R params opt_state) : Prop :=
  match ev with EvWandbInit c' => c' = c | _ => True end.

End Observations.

Arguments mark_of {R params opt_state} ev.
Arguments timeline {R params opt_state} evs.
Arguments saves_state {R params opt_state sched_state} w ev.
Arguments eval_mode_after_first {R params opt_state} ev.
Arguments logs_satisfy {R params opt_state} P ev.
Arguments training_event {R params opt_state} ev.
Arguments log_of {R params opt_state} ev.
Arguments logs {R params opt_state} evs.
Arguments log_count {R params opt_state} evs.
Arguments train_mode_of {R params opt_state} ev.
Arguments is_residual {R params opt_state} ev.
Arguments is_cuda_seed {R params opt_state} ev.
Arguments is_seed {R params opt_state} ev.
Arguments checkpoint_found {params opt_state} env args.
Arguments dataset_of {R params opt_state} ev.
Arguments datasets_built {R params opt_state} evs.
Arguments is_wandb {R params opt_state} ev.
Arguments wandb_calls {R params opt_state} evs.
Arguments grad_mode_ok {R params opt_state} g0 ev.
Arguments saved_path {R params opt_state} ev.
Arguments train_grad_of {R params opt_state} ev.
Arguments loop_event {R params opt_state} ev.
Arguments checkpoints_written {R params opt_state} evs.
Arguments is_done {R params opt_state} ev.
Arguments inference_only {R params opt_state} ev.
Arguments tracked_config {R params opt_state} c ev.

(* ===================================================================== *)
(** * A small concrete instance *)
(* ===================================================================== *)

(** Exact rational scalars, a one-weight network whose output is the
    constant tensor of the PDE resolution, squared-error loss. *)
Module Toy.

Definition half : Qc := Q2Qc (1 # 2).

Definition constant4 (b : nat) (res : list Z) (x : Qc) : t4 Qc :=
  match res with
  | [n1; n2; n3] =>
      repeat (repeat (repeat (repeat x (Z.to_nat n3)) (Z.to_nat n2)) (Z.to_nat n1)) b
  | _ => []
  end.

Definition flatten4 (x : t4 Qc) : list Qc :=
  List.concat (List.concat (List.concat x)).

Definition sq_err (x y : t4 Qc) : Qc :=
  fold_left Qcplus
    (map (fun p : Qc * Qc =>
            Qcmult (Qcminus (fst p) (snd p)) (Qcminus (fst p) (snd p)))
         (combine (flatten4 x) (flatten4 y)))
    (Q2Qc 0).

(** One batch of one sample: ground truth of the given resolution, all
    ones; input with a single time step and channel. *)
Definition sample (res : list Z) : batch Qc :=
  (constant4 1 res (Q2Qc 1), [[[[[Q2Qc 1]]]]]).

Definition X (pde : list Z)
  : externals Qc Qc Z Z Qc Z (kf_args Qc) (list (batch Qc)) := {|
  FNO3d := fun _ _ => half;
  forward := fun p _ a => constant4 (List.length a) pde p;
  count_params := fun _ => 1;
  LpLoss := fun _ => sq_err;
  PINO_loss3d := fun _ _ _ v t => (v, t);
  get_forcing := fun S => S;
  backward := fun _ _ _ loss => loss;
  optimizer_step := fun o _ p => (o + 1, Qcplus half (Qcmult half p));
  scheduler_step := fun s o => (s + 1, o);
  Adam := fun _ _ => 0;
  MultiStepLR := fun _ _ _ => 0;
  KFDataset := fun k => k;
  dataset_len := fun k => k_n_samples k;
  DataLoader := fun k _ => [sample (k_data_res k); sample (k_data_res k)];
  DataLoader_shuffle := fun k _ _ => [sample (k_data_res k)];
  sample_data := fun l i => nth (i mod List.length l)%nat l ([], [])
|}.

Definition env (cuda : bool) : environment Qc Z := {|
  cuda_available := cuda;
  wandb_installed := false;
  torch_load := fun _ => None
|}.

Definition data (pde data_ : list Z) : data_config Qc := {|
  paths := ["data/NS-toy.npy"%string];
  Re := Q2Qc 500;
  t_duration := half;
  raw_res := [16; 16; 17];
  pde_res := pde;
  data_res := data_;
  n_data_samples := 1;
  n_test_samples := 2;
  offset := 0;
  testoffset := 1
|}.

Definition model : model_config Qc := {|
  modes1 := [2; 2; 2];
  modes2 := [2; 2; 2];
  modes3 := [2; 2; 2];
  fc_dim := 8;
  layers := [4; 4; 4];
  act := "gelu";
  pad_ratio := Q2Qc 0;
  num_pad := 0
|}.

Definition train (f_weight : Qc) (iters save eval : Z) : train_config Qc := {|
  batchsize := 1;
  base_lr := half;
  milestones := [2; 4];
  scheduler_gamma := half;
  ic_loss := Q2Qc 5;
  f_loss := f_weight;
  xy_loss := Q2Qc 3;
  num_iter := iters;
  save_step := save;
  eval_step := eval
|}.

Definition config (pde data_ : list Z) (f_weight : Qc) (iters save eval : Z)
  : config Qc := {|
  cfg_data := data pde data_;
  cfg_model := model;
  cfg_train := train f_weight iters save eval;
  cfg_test := {| test_batchsize := 1; test_data_res := pde |};
  cfg_log := {| logdir := "toy"; project := "p"; entity := "e"; group := "g" |};
  cfg_seed := None;
  cfg_num_params := None
|}.

Definition args (test : bool) : cli_args := {|
  a_config := "toy.yaml";
  a_log := false;
  a_seed := 7;
  a_ckpt := None;
  a_test := test
|}.

(** The world [subprocess] hands to [train_ns] in this instance. *)
Definition start : world Qc (trainer Z Z) :=
  init_world half {| tr_opt := 0; tr_sched := 0; tr_draws := O |}.

Definition val_loader (res : list Z) : list (batch Qc) := [sample res; sample res].

Definition u_loader (res : list Z) : list (batch Qc) := [sample res].

(** The scenario of the specification: PDE grid 8 x 8 x 9, data grid
    4 x 4 x 5. *)
Definition pde_grid : list Z := [8; 8; 9].
Definition data_grid : list Z := [4; 4; 5].

(** [run f_weight iters save eval]: [train_ns] on that scenario. *)
Definition run (f_weight : Qc) (iters save eval : Z)
  : outcome Qc Qc Z (trainer Z Z) unit :=
  train_ns (X pde_grid) (env false) (u_loader data_grid) (val_loader pde_grid)
           (config pde_grid data_grid f_weight iters save eval) (args false) start.

(** A batch whose input has no time step. *)
Definition broken_sample : batch Qc :=
  (constant4 1 data_grid (Q2Qc 1), [[[[]]]]).

(** Three iterations with a residual weight, the second on the broken
    batch. *)
Definition crash_run : outcome Qc Qc Z (trainer Z Z) unit :=
  train_ns (X pde_grid) (env false) [sample data_grid; broken_sample] (val_loader pde_grid)
           (config pde_grid data_grid (Q2Qc 1) 3 1 1) (args false) start.

(** The scenario with [Re = 0]. *)
Definition zero_Re := {|
  cfg_data := {| paths := paths (data pde_grid data_grid);
                 Re := Q2Qc 0;
                 t_duration := half;
                 raw_res := [16; 16; 17];
                 pde_res := pde_grid;
                 data_res := data_grid;
                 n_data_samples := 1;
                 n_test_samples := 2;
                 offset := 0;
                 testoffset := 1 |};
  cfg_model := model;
  cfg_train := train (Q2Qc 1) 3 1 1;
  cfg_test := {| test_batchsize := 1; test_data_res := pde_grid |};
  cfg_log := {| logdir := "toy"; project := "p"; entity := "e"; group := "g" |};
  cfg_seed := None;
  cfg_num_params := None
|}.

(** A checkpoint store that holds, under every path, the weight 1 and
    the given optimiser state. *)
Definition store (optim : Z) : environment Qc Z := {|
  cuda_available := false;
  wandb_installed := false;
  torch_load := fun _ => Some {| ck_model := Q2Qc 1; ck_optim := optim |}
|}.

Definition warm_args (test : bool) (path : string) : cli_args := {|
  a_config := "toy.yaml";
  a_log := false;
  a_seed := 7;
  a_ckpt := Some path;
  a_test := test
|}.

(** A command line without [--seed]. *)
Definition parsed : namespace := {|
  n_config := "toy.yaml";
  n_log := false;
  n_seed := None;
  n_ckpt := None;
  n_test := true
|}.

(** The scenario, two iterations, saving and evaluating at each. *)
Definition scenario := config pde_grid data_grid (Q2Qc 1) 2 1 1.

End Toy.

(** The same scenario on Python's floats, with a zero residual weight. *)
Module FloatToy.

Import Binary64.

Definition half : spec_float := num 1 (-1).
Definition one : spec_float := num 1 0.
Definition infinity : spec_float := S754_infinity false.

Definition constant4 (b : nat) (res : list Z) (x : spec_float) : t4 spec_float :=
  match res with
  | [n1; n2; n3] =>
      repeat (repeat (repeat (repeat x (Z.to_nat n3)) (Z.to_nat n2)) (Z.to_nat n1)) b
  | _ => []
  end.

Definition flatten4 (x : t4 spec_float) : list spec_float :=
  List.concat (List.concat (List.concat x)).

(** Sum of squared differences. *)
Definition sq_err (x y : t4 spec_float) : spec_float :=
  fold_left (SFadd prec emax)
    (map (fun p : spec_float * spec_float =>
            SFmul prec emax (SFsub prec emax (fst p) (snd p))
                            (SFsub prec emax (fst p) (snd p)))
         (combine (flatten4 x) (flatten4 y)))
    (S754_zero false).

Definition sample (res : list Z) : batch spec_float :=
  (constant4 1 res one, [[[[[one]]]]]).

Definition X (pde : list Z)
  : externals spec_float spec_float Z Z spec_float Z (kf_args spec_float)
              (list (batch spec_float)) := {|
  FNO3d := fun _ _ => half;
  forward := fun p _ a => constant4 (List.length a) pde p;
  count_params := fun _ => 1;
  LpLoss := fun _ => sq_err;
  PINO_loss3d := fun _ _ _ v t => (v, t);
  get_forcing := fun S => S;
  backward := fun _ _ _ loss => loss;
  optimizer_step := fun o _ p => (o + 1, SFadd prec emax half (SFmul prec emax half p));
  scheduler_step := fun s o => (s + 1, o);
  Adam := fun _ _ => 0;
  MultiStepLR := fun _ _ _ => 0;
  KFDataset := fun k => k;
  dataset_len := fun k => k_n_samples k;
  DataLoader := fun k _ => [sample (k_data_res k); sample (k_data_res k)];
  DataLoader_shuffle := fun k _ _ => [sample (k_data_res k)];
  sample_data := fun l i => nth (i mod List.length l)%nat l ([], [])
|}.

Definition env : environment spec_float Z := {|
  cuda_available := false;
  wandb_installed := false;
  torch_load := fun _ => None
|}.

(** The 8 x 8 x 9 scenario with a zero residual weight, [xy_loss = 3]
    and the given [ic_loss]. *)
Definition config (ic_weight : spec_float) (iters : Z) : config spec_float := {|
  cfg_data := {| paths := ["data/NS-toy.npy"%string];
                 Re := of_int 500;
                 t_duration := half;
                 raw_res := [16; 16; 17];
                 pde_res := [8; 8; 9];
                 data_res := [4; 4; 5];
                 n_data_samples := 1;
                 n_test_samples := 2;
                 offset := 0;
                 testoffset := 1 |};
  cfg_model := {| modes1 := [2; 2; 2]; modes2 := [2; 2; 2]; modes3 := [2; 2; 2];
                  fc_dim := 8; layers := [4; 4; 4]; act := "gelu";
                  pad_ratio := S754_zero false; num_pad := 0 |};
  cfg_train := {| batchsize := 1;
                  base_lr := half;
                  milestones := [2; 4];
                  scheduler_gamma := half;
                  ic_loss := ic_weight;
                  f_loss := S754_zero false;
                  xy_loss := of_int 3;
                  num_iter := iters;
                  save_step := 2;
                  eval_step := 2 |};
  cfg_test := {| test_batchsize := 1; test_data_res := [8; 8; 9] |};
  cfg_log := {| logdir := "toy"; project := "p"; entity := "e"; group := "g" |};
  cfg_seed := None;
  cfg_num_params := None
|}.

Definition start : world spec_float (trainer Z Z) :=
  init_world half {| tr_opt := 0; tr_sched := 0; tr_draws := O |}.

Definition run (ic_weight : spec_float) (iters : Z)
  : outcome spec_float spec_float Z (trainer Z Z) unit :=
  train_ns (X [8; 8; 9]) env [sample [4; 4; 5]] [sample [8; 8; 9]; sample [8; 8; 9]]
           (config ic_weight iters) (Toy.args false) start.

End FloatToy.

(* ===================================================================== *)
(** * Properties *)
(* ===================================================================== *)

(** ** Zero terms in floating-point arithmetic *)

Lemma binary64_zero_finite (w : spec_float) :
  Binary64.is_zero w = true -> Binary64.is_finite w = true.
Proof. destruct w; cbn; congruence. Qed.

(** [0.0 * w] is [0.0] or [-0.0] for a finite [w]; it is NaN for an
    infinity or a NaN. *)
Lemma binary64_mul_zero_l (w : spec_float) :
  Binary64.is_finite w = true ->
  Binary64.is_zero (SFmul Binary64.prec Binary64.emax (S754_zero false) w) = true.
Proof. destruct w; cbn; congruence. Qed.

(** [x + 0.0] and [x + -0.0] are [x], but for the sign of a zero. *)
Lemma binary64_add_zero_r (x z : spec_float) :
  Binary64.is_zero z = true ->
  SFadd Binary64.prec Binary64.emax x z = x \/
  (Binary64.is_zero (SFadd Binary64.prec Binary64.emax x z) = true /\
   Binary64.is_zero x = true).
Proof.
  destruct z as [s| | |]; try discriminate. intros _.
  destruct x as [sx|sx| |sx mx ex]; cbn; auto.
  destruct sx, s; auto.
Qed.

#[export] Instance ZeroTerms_binary64 : ZeroTerms spec_float := {
  s_is_finite := Binary64.is_finite;
  s_zero_finite := binary64_zero_finite;
  s_mul_zero_l := binary64_mul_zero_l;
  s_add_zero_r := binary64_add_zero_r
}.

Lemma same_number_trans R (SR : Scalar R) (x y z : R) :
  same_number x y -> same_number y z -> same_number x z.
Proof.
  unfold same_number. intros [-> | [Hx Hy]] [-> | [Hy' Hz]]; auto.
Qed.

Lemma Forall_map_const A B (P : B -> Prop) (b : B) (l : list A) :
  P b -> Forall P (map (fun _ => b) l).
Proof. intros H. induction l; cbn; auto. Qed.

(** ** Running the monad *)

Section Running.

Variables R params opt_state O : Type.

Let Ev := event R params opt_state.
Let Mo := M R params opt_state O.
Let Out := outcome R params opt_state O.

Lemma prepend_nil A (o : Out A) : prepend [] o = o.
Proof. destruct o; reflexivity. Qed.

Lemma bind_run A B (m : Mo A) (k : A -> Mo B) (w : world params O) :
  bind m k w = continue (out_events (m w)) (out_world (m w)) (out_res (m w)) k.
Proof. unfold bind, continue. destruct (out_res (m w)); reflexivity. Qed.

Lemma bind_ret A B (a : A) (k : A -> Mo B) w : bind (ret a) k w = k a w.
Proof. rewrite bind_run. cbn. apply prepend_nil. Qed.

Lemma bind_get B (k : world params O -> Mo B) w : bind get k w = k w w.
Proof. rewrite bind_run. cbn. apply prepend_nil. Qed.

Lemma bind_modify B (f : world params O -> world params O) (k : unit -> Mo B) w :
  bind (modify f) k w = k tt (f w).
Proof. rewrite bind_run. cbn. apply prepend_nil. Qed.

Lemma bind_emit B (ev : Ev) (k : unit -> Mo B) w :
  bind (emit ev) k w = prepend [ev] (k tt w).
Proof. rewrite bind_run. reflexivity. Qed.

Lemma bind_lift A B (r : result A) (k : A -> Mo B) w :
  bind (lift r) k w = continue [] w r k.
Proof. rewrite bind_run. reflexivity. Qed.

Lemma bind_assoc A B C (m : Mo A) (k : A -> Mo B) (k' : B -> Mo C) w :
  bind (bind m k) k' w = bind m (fun a => bind (k a) k') w.
Proof.
  unfold bind.
  destruct (out_res (m w)); cbn; [|reflexivity].
  destruct (out_res (k a (out_world (m w)))); cbn; now rewrite ?app_assoc.
Qed.

Lemma bind_when B (b : bool) (m : Mo unit) (k : unit -> Mo B) w :
  bind (when b m) k w = if b then bind m k w else k tt w.
Proof. destruct b; cbn; [reflexivity | apply bind_ret]. Qed.

Lemma when_run (b : bool) (m : Mo unit) w :
  when b m w = if b then m w else ret tt w.
Proof. destruct b; reflexivity. Qed.

Lemma emit_run (ev : Ev) (w : world params O) :
  (emit ev : Mo unit) w = {| out_events := [ev]; out_world := w; out_res := Ok tt |}.
Proof. reflexivity. Qed.

Lemma ret_run A (a : A) (w : world params O) :
  (ret a : Mo A) w = {| out_events := []; out_world := w; out_res := Ok a |}.
Proof. reflexivity. Qed.

(** A successful [bind] ran both of its parts successfully. *)
Lemma bind_ok A B (m : Mo A) (k : A -> Mo B) w b :
  out_res (bind m k w) = Ok b ->
  exists a, out_res (m w) = Ok a /\ out_res (k a (out_world (m w))) = Ok b /\
            out_events (bind m k w) = out_events (m w) ++ out_events (k a (out_world (m w))) /\
            out_world (bind m k w) = out_world (k a (out_world (m w))).
Proof.
  unfold bind. destruct (out_res (m w)) as [a|e]; cbn; [|discriminate].
  intros H. exists a. auto.
Qed.

(** Events of a loop satisfy [P], and a successful loop keeps [Inv],
    when every iteration does. *)
Lemma for_each_inv A (P : Ev -> Prop) (Inv : world params O -> Prop)
    (body : A -> Mo unit) (l : list A) :
  (forall x w, In x l -> Inv w ->
     Forall P (out_events (body x w)) /\
     (out_res (body x w) = Ok tt -> Inv (out_world (body x w)))) ->
  forall w, Inv w ->
    Forall P (out_events (for_each l body w)) /\
    (out_res (for_each l body w) = Ok tt -> Inv (out_world (for_each l body w))).
Proof.
  induction l as [|x l IH]; intros Hbody w Hw.
  - cbn. auto.
  - cbn [for_each]. rewrite bind_run.
    destruct (Hbody x w (or_introl eq_refl) Hw) as [Hev Hpost].
    destruct (out_res (body x w)) as [[]|e]; cbn.
    + destruct (IH (fun y w' Hy => Hbody y w' (or_intror Hy)) _ (Hpost eq_refl)) as [Hev' Hpost'].
      split; [apply Forall_app; auto | exact Hpost'].
    + split; [exact Hev | discriminate].
Qed.

End Running.

(** Symbolic execution of a monadic term applied to a world. *)
Ltac mstep :=
  first [ rewrite bind_assoc | rewrite bind_get | rewrite bind_modify
        | rewrite bind_emit | rewrite bind_ret | rewrite bind_lift
        | rewrite bind_when | rewrite when_run | rewrite emit_run | rewrite ret_run ];
  cbn beta.

Ltac msimpl :=
  cbn [w_params w_training w_grad_enabled w_rest tr_opt tr_sched tr_draws
       out_events out_world out_res continue prepend set_training fst snd app] in *.

Ltac mrun := repeat mstep; msimpl.

(** Splits a [Forall] over an explicit event list into its events. *)
Ltac each_event :=
  repeat first [ apply Forall_nil
               | apply Forall_cons
               | apply Forall_app; split
               | apply Forall_map_const ].

(** Case analysis on the next result or condition the run depends on. *)
Ltac mcase :=
  match goal with
  | |- context [continue _ _ ?r _] => destruct r eqn:?; cbn [continue]
  | |- context [if ?b then _ else _] => destruct b eqn:?
  end.

(** ** Strided slicing *)

Section Slicing.

Variable A : Type.

Lemma every_from_length (k' skip : nat) (l : list A) :
  (skip <= k')%nat ->
  List.length (every_from (S k') skip l) = ((List.length l + k' - skip) / S k')%nat.
Proof.
  revert skip. induction l as [|x l IH]; intros skip Hs; cbn [every_from List.length].
  - symmetry. apply Nat.div_small. lia.
  - destruct skip as [|j].
    + cbn [Nat.pred List.length]. rewrite IH by lia.
      replace (List.length l + k' - k')%nat with (List.length l) by lia.
      replace (S (List.length l) + k' - 0)%nat with (List.length l + 1 * S k')%nat by lia.
      rewrite Nat.div_add by lia. symmetry. apply Nat.add_1_r.
    + rewrite IH by lia. reflexivity.
Qed.

Lemma every_from_incl (k skip : nat) (l : list A) (x : A) :
  In x (every_from k skip l) -> In x l.
Proof.
  revert skip. induction l as [|y l IH]; intros skip; cbn [every_from]; [tauto|].
  destruct skip as [|j]; cbn [In]; intros H.
  - destruct H as [H|H]; [auto | right; eapply IH; eauto].
  - right; eapply IH; eauto.
Qed.

(** [len(l[::k])] *)
Lemma every_len (k : Z) (l : list A) :
  1 <= k -> len (every (Z.to_nat k) l) = slice_len (len l) k.
Proof.
  intros Hk. unfold every, len, slice_len.
  destruct (Z.to_nat k) as [|k'] eqn:E; [lia|].
  rewrite every_from_length by lia.
  rewrite Nat2Z.inj_div. f_equal; lia.
Qed.

Lemma forallb_every (P : A -> bool) (k : nat) (l : list A) :
  forallb P l = true -> forallb P (every k l) = true.
Proof.
  rewrite !forallb_forall. intros H x Hx. apply H.
  eapply every_from_incl; exact Hx.
Qed.

(** [l[::k][i]] is [l[i*k]]. *)
Lemma every_from_nth (k' skip i : nat) (l : list A) :
  nth_error (every_from (S k') skip l) i = nth_error l (skip + i * S k').
Proof.
  revert skip i. induction l as [|x l IH]; intros skip i; cbn [every_from].
  - now rewrite !nth_error_nil.
  - destruct skip as [|j].
    + destruct i as [|i']; [reflexivity|].
      cbn [Nat.pred nth_error]. rewrite IH.
      replace (0 + S i' * S k')%nat with (S (k' + i' * S k')) by lia. reflexivity.
    + rewrite IH. reflexivity.
Qed.

Lemma every_nth (k : Z) (i : nat) (l : list A) :
  1 <= k -> nth_error (every (Z.to_nat k) l) i = nth_error l (i * Z.to_nat k).
Proof.
  intros Hk. unfold every.
  destruct (Z.to_nat k) as [|k'] eqn:E; [lia|].
  now rewrite every_from_nth.
Qed.
End Slicing.

Section Subsampling.

Variable R : Type.

Lemma forallb_map_true A B (f : A -> B) (P : B -> bool) (Q : A -> bool) (l : list A) :
  (forall x, Q x = true -> P (f x) = true) ->
  forallb Q l = true -> forallb P (map f l) = true.
Proof.
  intros H. rewrite !forallb_forall. intros HQ y Hy.
  apply in_map_iff in Hy. destruct Hy as (x & <- & Hx). auto.
Qed.

Lemma len_map A B (f : A -> B) (l : list A) : len (map f l) = len l.
Proof. unfold len. now rewrite length_map. Qed.

(** Positive strides never raise, and the result has the sliced shape. *)
Lemma subsample_shape (s t b n1 n2 n3 : Z) (out : t4 R) :
  1 <= s -> 1 <= t ->
  has_shape4 out [b; n1; n2; n3] = true ->
  exists u_pred,
    subsample s t out = Ok u_pred /\
    has_shape4 u_pred [b; slice_len n1 s; slice_len n2 s; slice_len n3 t] = true.
Proof.
  intros Hs Ht Hsh. unfold subsample.
  replace ((s <=? 0) || (t <=? 0)) with false
    by (symmetry; apply orb_false_iff; split; apply Z.leb_gt; lia).
  eexists. split; [reflexivity|].
  cbn [has_shape4] in *. apply andb_true_iff in Hsh. destruct Hsh as [Hb Hvols].
  apply andb_true_iff. split.
  - unfold dim_is in *. now rewrite len_map.
  - eapply forallb_map_true; [|exact Hvols].
    intros vol Hvol. apply andb_true_iff in Hvol. destruct Hvol as [H1 Hplanes].
    apply andb_true_iff. split.
    + unfold dim_is in *. apply Z.eqb_eq in H1. apply Z.eqb_eq.
      rewrite len_map, every_len by lia. now rewrite H1.
    + eapply forallb_map_true; [|apply forallb_every; exact Hplanes].
      intros plane Hplane. apply andb_true_iff in Hplane. destruct Hplane as [H2 Hrows].
      apply andb_true_iff. split.
      * unfold dim_is in *. apply Z.eqb_eq in H2. apply Z.eqb_eq.
        rewrite len_map, every_len by lia. now rewrite H2.
      * eapply forallb_map_true; [|apply forallb_every; exact Hrows].
        intros row Hrow. unfold dim_is in *. apply Z.eqb_eq in Hrow. apply Z.eqb_eq.
        rewrite every_len by lia. now rewrite Hrow.
Qed.

(** C3. With [pde_res = [8, 8, 9]] and [data_res = [4, 4, 5]] the strides
    are [s_step = 2] and [t_step = 2], and subsampling any model output of
    shape [pde_res] (whatever the batch size) gives a tensor whose
    spatial and temporal shape is [data_res]. *)
Theorem strides_8_8_9_to_4_4_5 (d : data_config R) (b : Z) (out : t4 R) :
  pde_res d = [8; 8; 9] ->
  data_res d = [4; 4; 5] ->
  has_shape4 out (b :: pde_res d) = true ->
  strides d = Ok (2, 2) /\
  exists u_pred,
    subsample 2 2 out = Ok u_pred /\
    subsampled d out = Ok u_pred /\
    has_shape4 u_pred (b :: data_res d) = true.
Proof.
  intros Hp Hd Hsh.
  assert (Hst : strides d = Ok (2, 2)) by (unfold strides; rewrite Hp, Hd; reflexivity).
  split; [exact Hst|].
  rewrite Hp in Hsh.
  destruct (@subsample_shape 2 2 b 8 8 9 out) as (u_pred & Hu & Hshape); try lia; auto.
  exists u_pred. repeat split; auto.
  - unfold subsampled. rewrite Hst. exact Hu.
  - rewrite Hd. exact Hshape.
Qed.

(** Floor-divided strides on grids that do not divide evenly. *)
Lemma inexact_space (p0 d0 : Z) :
  0 < d0 <= p0 -> p0 mod d0 <> 0 ->
  1 <= p0 / d0 /\ d0 < slice_len p0 (p0 / d0).
Proof.
  intros Hd Hm.
  assert (Hs : 1 <= p0 / d0) by (apply Z.div_le_lower_bound; lia).
  split; [exact Hs|]. unfold slice_len.
  pose proof (Z.div_mod p0 d0 ltac:(lia)) as E.
  pose proof (Z.mod_pos_bound p0 d0 ltac:(lia)) as B.
  assert (d0 + 1 <= (p0 + p0 / d0 - 1) / (p0 / d0)); [|lia].
  apply Z.div_le_lower_bound; nia.
Qed.

Lemma inexact_time (p2 d2 : Z) :
  0 < d2 - 1 <= p2 - 1 -> (p2 - 1) mod (d2 - 1) <> 0 ->
  let t := (p2 - 1) / (d2 - 1) in
  1 <= t /\
  (d2 < slice_len p2 t \/ (slice_len p2 t = d2 /\ (d2 - 1) * t < p2 - 1)).
Proof.
  intros Hd Hm t.
  assert (Ht : 1 <= t) by (apply Z.div_le_lower_bound; lia).
  split; [exact Ht|]. unfold slice_len.
  pose proof (Z.div_mod (p2 - 1) (d2 - 1) ltac:(lia)) as E.
  pose proof (Z.mod_pos_bound (p2 - 1) (d2 - 1) ltac:(lia)) as B.
  fold t in E.
  replace (p2 + t - 1) with ((p2 - 1) + 1 * t) by lia.
  rewrite Z.div_add by lia.
  assert (Hq : d2 - 1 <= (p2 - 1) / t) by (apply Z.div_le_lower_bound; nia).
  destruct (Z.eq_dec ((p2 - 1) / t) (d2 - 1)) as [Heq|Hne].
  - right. split; [lia|]. nia.
  - left. lia.
Qed.

Lemma getitem_triple (a b c : Z) :
  getitem [a; b; c] 0 = Ok a /\ getitem [a; b; c] 2 = Ok c.
Proof. split; reflexivity. Qed.

(** C4 (as amended).  When both floor-divided strides are at least 1
    ([0 < data_res[0] <= pde_res[0]] and
    [0 < data_res[2]-1 <= pde_res[2]-1]) and one of the two ratios is not
    an exact integer, neither the stride computation nor the strided
    slicing raises: the output is subsampled with the floor-divided
    strides, and the result is misaligned with the data grid.  Along an
    inexact spatial axis it has more points than the data grid; along an
    inexact time axis it has more points than the data grid, or as many
    with its last sample before the final time index. *)
Theorem floor_strides_misalign (d : data_config R) (p0 p1 p2 d0 d1 d2 b : Z) (out : t4 R) :
  pde_res d = [p0; p1; p2] ->
  data_res d = [d0; d1; d2] ->
  0 < d0 <= p0 ->
  0 < d2 - 1 <= p2 - 1 ->
  p0 mod d0 <> 0 \/ (p2 - 1) mod (d2 - 1) <> 0 ->
  has_shape4 out (b :: pde_res d) = true ->
  let s_step := p0 / d0 in
  let t_step := (p2 - 1) / (d2 - 1) in
  strides d = Ok (s_step, t_step) /\
  exists u_pred,
    subsampled d out = Ok u_pred /\
    has_shape4 u_pred [b; slice_len p0 s_step; slice_len p1 s_step; slice_len p2 t_step] = true /\
    (p0 mod d0 <> 0 -> d0 < slice_len p0 s_step) /\
    ((p2 - 1) mod (d2 - 1) <> 0 ->
     d2 < slice_len p2 t_step \/
     (slice_len p2 t_step = d2 /\ (d2 - 1) * t_step < p2 - 1)) /\
    misaligned d0 d2 p2 t_step (slice_len p0 s_step) (slice_len p2 t_step).
Proof.
  intros Hp Hd Hs Ht Hinexact Hsh s_step t_step.
  assert (Hst : strides d = Ok (s_step, t_step)).
  { unfold strides, floordiv. rewrite Hp, Hd.
    rewrite !(proj1 (getitem_triple _ _ _)), !(proj2 (getitem_triple _ _ _)).
    replace (d0 =? 0) with false by (symmetry; apply Z.eqb_neq; lia).
    replace (d2 - 1 =? 0) with false by (symmetry; apply Z.eqb_neq; lia).
    reflexivity. }
  assert (Hs1 : 1 <= s_step) by (apply Z.div_le_lower_bound; lia).
  assert (Ht1 : 1 <= t_step) by (apply Z.div_le_lower_bound; lia).
  split; [exact Hst|].
  rewrite Hp in Hsh.
  destruct (@subsample_shape s_step t_step b p0 p1 p2 out Hs1 Ht1 Hsh) as (u_pred & Hu & Hshape).
  exists u_pred.
  assert (Hspace : p0 mod d0 <> 0 -> d0 < slice_len p0 s_step)
    by (intros Hm; now apply inexact_space).
  assert (Htime : (p2 - 1) mod (d2 - 1) <> 0 ->
                  d2 < slice_len p2 t_step \/
                  (slice_len p2 t_step = d2 /\ (d2 - 1) * t_step < p2 - 1))
    by (intros Hm; now apply inexact_time).
  repeat split; auto.
  - unfold subsampled. rewrite Hst. exact Hu.
  - unfold misaligned. destruct Hinexact as [Hm | Hm]; [left | right]; auto.
Qed.

(** X1.  What the strided slice of line 100 holds: entry [(b, i, j, k)]
    of [out[:, ::s, ::s, ::t]] is entry [(b, i*s, j*s, k*t)] of [out],
    and out of range exactly when that entry is; the slice is taken
    only with both steps at least 1. *)
Theorem subsample_entries (s t : Z) (out u_pred : t4 R) (b i j k : nat) :
  subsample s t out = Ok u_pred ->
  1 <= s /\ 1 <= t /\
  at4 u_pred b i j k = at4 out b (i * Z.to_nat s) (j * Z.to_nat s) (k * Z.to_nat t).
Proof.
  unfold subsample. destruct ((s <=? 0) || (t <=? 0)) eqn:E; [discriminate|].
  apply orb_false_iff in E. destruct E as [Hs Ht].
  apply Z.leb_gt in Hs, Ht. intros [= <-].
  split; [lia|]. split; [lia|].
  unfold at4. rewrite nth_error_map.
  destruct (nth_error out b) as [vol|]; cbn [option_map]; [|reflexivity].
  rewrite nth_error_map, every_nth by lia.
  destruct (nth_error vol _) as [plane|]; cbn [option_map]; [|reflexivity].
  rewrite nth_error_map, every_nth by lia.
  destruct (nth_error plane _) as [row|]; cbn [option_map]; [|reflexivity].
  apply every_nth; lia.
Qed.

Lemma slice_len_exact (n k : Z) : 1 <= k -> slice_len (k * n) k = n.
Proof.
  intros Hk. unfold slice_len.
  replace (k * n + k - 1) with (n * k + (k - 1)) by lia.
  rewrite Z.div_add_l by lia. rewrite Z.div_small by lia. lia.
Qed.

Lemma slice_len_exact_time (n k : Z) : 1 <= k -> slice_len (k * (n - 1) + 1) k = n.
Proof.
  intros Hk. unfold slice_len.
  replace (k * (n - 1) + 1 + k - 1) with (n * k + 0) by lia.
  rewrite Z.div_add_l by lia. rewrite Z.div_small by lia. lia.
Qed.

(** X2.  Exact ratios line the grids up.  When the PDE grid is [s] times
    the data grid along both spatial axes and its time axis has
    [t * (data_res[2] - 1) + 1] points, lines 64-65 compute the strides
    [(s, t)], and subsampling a model output of the PDE resolution gives
    exactly the data resolution, the last time sample on the final time
    index. *)
Theorem exact_strides_align (d : data_config R) (s t d0 d1 d2 b : Z) (out : t4 R) :
  1 <= s -> 1 <= t -> 1 <= d0 -> 2 <= d2 ->
  data_res d = [d0; d1; d2] ->
  pde_res d = [s * d0; s * d1; t * (d2 - 1) + 1] ->
  has_shape4 out (b :: pde_res d) = true ->
  strides d = Ok (s, t) /\
  (exists u_pred,
     subsampled d out = Ok u_pred /\
     has_shape4 u_pred (b :: data_res d) = true) /\
  ~ misaligned d0 d2 (t * (d2 - 1) + 1) t (slice_len (s * d0) s) (slice_len (t * (d2 - 1) + 1) t).
Proof.
  intros Hs Ht Hd0 Hd2 Hd Hp Hsh.
  assert (Hst : strides d = Ok (s, t)).
  { unfold strides, floordiv. rewrite Hp, Hd.
    rewrite !(proj1 (getitem_triple _ _ _)), !(proj2 (getitem_triple _ _ _)).
    replace (d0 =? 0) with false by (symmetry; apply Z.eqb_neq; lia).
    replace (d2 - 1 =? 0) with false by (symmetry; apply Z.eqb_neq; lia).
    replace (s * d0 / d0) with s by (symmetry; apply Z.div_mul; lia).
    replace ((t * (d2 - 1) + 1 - 1) / (d2 - 1)) with t
      by (replace (t * (d2 - 1) + 1 - 1) with (t * (d2 - 1)) by lia;
          symmetry; apply Z.div_mul; lia).
    reflexivity. }
  split; [exact Hst|]. split.
  - rewrite Hp in Hsh.
    destruct (subsample_shape _ _ _ _ out Hs Ht Hsh) as (u_pred & Hu & Hshape).
    exists u_pred. split.
    + unfold subsampled. rewrite Hst. exact Hu.
    + rewrite Hd. rewrite !slice_len_exact, slice_len_exact_time in Hshape by lia.
      exact Hshape.
  - rewrite slice_len_exact, slice_len_exact_time by lia.
    unfold misaligned. lia.
Qed.
End Subsampling.

(** ** Checkpoint paths *)

Lemma ends_with_sep_app (a b : string) :
  b <> EmptyString -> ends_with_sep (a ++ b) = ends_with_sep b.
Proof.
  intros Hb. induction a as [|c a IH]; [reflexivity|].
  cbn [append ends_with_sep]. rewrite IH.
  destruct (a ++ b)%string eqn:E; [|reflexivity].
  destruct a; cbn in E; [congruence | discriminate].
Qed.

Lemma append_assoc' (a b c : string) : ((a ++ b) ++ c = a ++ (b ++ c))%string.
Proof. induction a as [|x a IH]; cbn; [reflexivity | now rewrite IH]. Qed.


Lemma to_int_proper (z : Z) :
  Z.to_int z <> Decimal.Pos Decimal.Nil /\ Z.to_int z <> Decimal.Neg Decimal.Nil.
Proof.
  destruct z as [|p|p]; cbn; split; try discriminate; intros [= E];
    exact (DecimalPos.Unsigned.to_uint_nonnil p E).
Qed.

(** [str] of an int tells the int. *)
Lemma str_of_int_inj (a b : Z) : str_of_int a = str_of_int b -> a = b.
Proof.
  unfold str_of_int. intros H.
  apply (f_equal NilZero.int_of_string) in H.
  rewrite !NilZero.isi in H by apply to_int_proper.
  injection H as H. apply (f_equal Z.of_int) in H.
  now rewrite !DecimalZ.of_to in H.
Qed.

Lemma append_inj_l (p a b : string) : (p ++ a = p ++ b)%string -> a = b.
Proof. induction p as [|c p IH]; cbn; [auto | intros [= H]; auto]. Qed.

Lemma length_append (a b : string) :
  String.length (a ++ b) = (String.length a + String.length b)%nat.
Proof. induction a as [|c a IH]; cbn; [reflexivity | now rewrite IH]. Qed.

Lemma append_inj_r (c a b : string) : (a ++ c = b ++ c)%string -> a = b.
Proof.
  revert b. induction a as [|x a IH]; intros [|y b] H; cbn in H.
  - reflexivity.
  - apply (f_equal String.length) in H. cbn in H. rewrite length_append in H. lia.
  - apply (f_equal String.length) in H. cbn in H. rewrite length_append in H. lia.
  - injection H as -> H. f_equal. now apply IH.
Qed.

(** Distinct iterations have distinct checkpoint files, whatever the log
    directory. *)
Lemma ckpt_path_inj (l : log_config) (e1 e2 : Z) :
  ckpt_path l e1 = ckpt_path l e2 -> e1 = e2.
Proof.
  unfold ckpt_path, path_join.
  cbn [append starts_with_sep Ascii.eqb Bool.eqb].
  intros H. apply str_of_int_inj, (append_inj_r ".pt"), (append_inj_l "model-").
  destruct (is_empty (ckpt_dir l) || ends_with_sep (ckpt_dir l)).
  - exact (append_inj_l _ _ _ H).
  - apply (append_inj_l "/"). exact (append_inj_l _ _ _ H).
Qed.

(** X3.  An absolute log directory takes the checkpoints out of [exp/]:
    [os.path.join] drops what comes before an absolute component. *)
Theorem ckpt_path_absolute (l : log_config) (e : Z) :
  starts_with_sep (logdir l) = true ->
  ends_with_sep (logdir l) = false ->
  ckpt_dir l = (logdir l ++ "/ckpts")%string /\
  ckpt_path l e = (logdir l ++ "/ckpts/model-" ++ str_of_int e ++ ".pt")%string.
Proof.
  intros Habs Hend.
  assert (Hne : is_empty (logdir l) = false) by (destruct (logdir l); [discriminate | reflexivity]).
  assert (Hdir : ckpt_dir l = (logdir l ++ "/ckpts")%string).
  { unfold ckpt_dir, path_join. rewrite Habs.
    cbn [starts_with_sep Ascii.eqb Bool.eqb]. rewrite Hne, Hend. reflexivity. }
  split; [exact Hdir|].
  unfold ckpt_path. rewrite Hdir. unfold path_join.
  cbn [append starts_with_sep Ascii.eqb Bool.eqb].
  rewrite ends_with_sep_app by discriminate.
  replace (is_empty (logdir l ++ "/ckpts")) with false
    by (destruct (logdir l); [discriminate | reflexivity]).
  cbn [ends_with_sep Ascii.eqb Bool.eqb orb]. now rewrite append_assoc'.
Qed.

Section Properties.

Local Open Scope monad_scope.

Context {R : Type} {SR : Scalar R}.
Variables params opt_state sched_state grads forcing dataset train_loader : Type.

Let Ev := event R params opt_state.
Let Ext := externals R params opt_state sched_state grads forcing dataset train_loader.

(** ** The evaluation loop *)

Lemma eval_loop_run (X : Ext) O crit (l : list (batch R)) (acc : R) (w : world params O) :
  eval_loop X crit l acc w =
  {| out_events := map (fun _ => EvForward InEval (w_training w) (w_grad_enabled w)) l;
     out_world := w;
     out_res := Ok (fold_left
                      (fun s b => s_add s (crit (forward X (w_params w) (w_training w) (snd b))
                                                (fst b))) l acc) |}.
Proof.
  revert acc. induction l as [|[u a] l IH]; intros acc.
  - reflexivity.
  - cbn [eval_loop]. unfold call_model. mrun. rewrite IH. reflexivity.
Qed.

Lemma fold_left_map_add A (f : A -> R) (l : list A) (acc : R) :
  fold_left (fun s b => s_add s (f b)) l acc = fold_left s_add (map f l) acc.
Proof. revert acc. induction l as [|x l IH]; intros acc; cbn; auto. Qed.

(** [eval_ns] in full: one forward pass per batch, in evaluation mode
    and without gradient tracking; the model ends in evaluation mode,
    everything else as it was; the result is the quotient of line 39. *)
Lemma eval_ns_run (X : Ext) O crit (l : list (batch R)) (w : world params O) :
  eval_ns X l crit w =
  {| out_events := map (fun _ => EvForward InEval false false) l;
     out_world := set_training false w;
     out_res := truediv_int (sum_scalars (map (batch_error X crit (w_params w)) l))
                            (len l) |}.
Proof.
  unfold eval_ns, no_grad, sum_scalars, batch_error.
  rewrite <- fold_left_map_add.
  rewrite bind_modify, bind_run, eval_loop_run.
  cbn [out_events out_world out_res continue].
  rewrite bind_lift.
  destruct w as [p tr g rest]. cbn.
  destruct (truediv_int _ _); cbn; now rewrite ?app_nil_r.
Qed.

(** C5. On a non-empty batch source [eval_ns] returns the arithmetic mean
    of the per-batch criterion values [criterion(model(a), u)]: their
    sum divided by the number of batches.  Every batch gets exactly one
    forward pass, made with gradient tracking off; the parameters are
    untouched and the previous gradient mode is back afterwards. *)
Theorem eval_ns_mean (X : Ext) O (crit : criterion R) (val_loader : list (batch R))
    (w : world params O) :
  val_loader <> [] ->
  out_res (eval_ns X val_loader crit w)
    = Ok (mean_batch_error X crit (w_params w) val_loader) /\
  mean_batch_error X crit (w_params w) val_loader
    = s_div (fold_left s_add
               (map (fun b => crit (forward X (w_params w) false (snd b)) (fst b)) val_loader)
               s_zero)
            (s_of_int (Z.of_nat (List.length val_loader))) /\
  out_events (eval_ns X val_loader crit w)
    = map (fun _ => EvForward InEval false false) val_loader /\
  w_params (out_world (eval_ns X val_loader crit w)) = w_params w /\
  w_grad_enabled (out_world (eval_ns X val_loader crit w)) = w_grad_enabled w.
Proof.
  intros Hne. rewrite eval_ns_run. cbn [out_res out_events out_world].
  repeat split.
  unfold truediv_int, mean_batch_error.
  destruct (len val_loader =? 0) eqn:E; [|reflexivity].
  apply Z.eqb_eq in E. unfold len in E.
  destruct val_loader; [congruence | cbn in E; lia].
Qed.

(** C9. On an empty batch source [eval_ns] does not return: the division
    of line 39 raises [ZeroDivisionError]. *)
Theorem eval_ns_empty (X : Ext) O (crit : criterion R) (w : world params O) :
  out_res (eval_ns X [] crit w) = Raise ZeroDivisionError.
Proof. rewrite eval_ns_run. reflexivity. Qed.

(** ** One training iteration *)

Section Iteration.

Variable X : Ext.
Variable env : environment params opt_state.
Variable train_u_loader : train_loader.
Variable val_loader : list (batch R).
Variable config : config R.
Variable args : cli_args.
Variables (v : R) (s_step t_step : Z) (forcing_ : forcing) (lploss : criterion R).

Let body := train_iter X env train_u_loader val_loader config args
                       v s_step t_step forcing_ lploss.

(** Runs [train_iter] symbolically, down to every leaf. *)
Ltac iter_exec :=
  unfold body, train_iter, next_batch, call_model, physics_losses, descend, save_ckpt;
  mrun;
  repeat (first [ rewrite (bind_run (eval_ns _ _ _)), eval_ns_run | mcase ]; mrun).

(** Every log record of an iteration accounts for its total loss, and
    an iteration has no effects but those of the training loop. *)
Lemma train_iter_accounts (e : Z) (w : world params (trainer opt_state sched_state)) :
  Forall (fun ev => logs_satisfy (loss_breakdown (cfg_train config)) ev /\
                    training_event ev = true)
         (out_events (body e w)).
Proof.
  iter_exec; each_event; (split; [|reflexivity]); cbn [logs_satisfy]; try exact I.
  all: unfold loss_breakdown, total_loss.
  all: destruct (s_is_zero (f_loss (cfg_train config))); try discriminate.
  all: eexists _, _, _; repeat split; reflexivity.
Qed.

(** Line 112 with the two zeros of line 111, under a zero residual
    weight and a finite initial-condition weight. *)
Lemma total_loss_zero_terms {E : ZeroTerms R} (tc : train_config R) (data_loss : R) :
  s_is_zero (f_loss tc) = true ->
  s_is_finite (ic_loss tc) = true ->
  same_number (total_loss tc data_loss s_zero s_zero) (s_mul data_loss (xy_loss tc)).
Proof.
  intros Hf Hic. unfold total_loss.
  eapply same_number_trans; apply s_add_zero_r; apply s_mul_zero_l; auto.
  now apply s_zero_finite.
Qed.

(** With a zero residual weight and a finite initial-condition weight the
    residual routine is not called and the total is the weighted data
    loss. *)
Lemma train_iter_data_only {E : ZeroTerms R} (e : Z)
    (w : world params (trainer opt_state sched_state)) :
  s_is_zero (f_loss (cfg_train config)) = true ->
  s_is_finite (ic_loss (cfg_train config)) = true ->
  Forall (fun ev => logs_satisfy (data_only (cfg_train config)) ev /\ is_residual ev = false)
         (out_events (body e w)).
Proof.
  intros Hz Hic.
  unfold body, train_iter, physics_losses. rewrite Hz. cbn [negb].
  iter_exec; each_event; (split; [|reflexivity]); cbn [logs_satisfy]; try exact I.
  all: unfold data_only; eexists;
       (split; [reflexivity | split; [reflexivity | split; [|split; reflexivity]]]).
  all: now apply total_loss_zero_terms.
Qed.
(** The residual routine does not matter when its weight is zero. *)
Lemma train_iter_residual_unused (residual : t4 R -> t3 R -> forcing -> R -> R -> R * R)
    (e : Z) (w : world params (trainer opt_state sched_state)) :
  s_is_zero (f_loss (cfg_train config)) = true ->
  train_iter (with_residual X residual) env train_u_loader val_loader config args
             v s_step t_step forcing_ lploss e w
  = body e w.
Proof.
  intros Hz.
  unfold body, train_iter, physics_losses. rewrite Hz. cbn [negb]. reflexivity.
Qed.

Lemma mod_zero_l (n r : Z) : mod_ 0 n = Ok r -> r = 0.
Proof.
  unfold mod_. destruct (n =? 0); [discriminate|]. rewrite Zmod_0_l; congruence.
Qed.

(** Iteration 0 leaves the model in evaluation mode, and so does every
    iteration that finds it there; the forward pass of an iteration sees
    the mode the iteration starts in. *)
Lemma train_iter_mode (e : Z) (w : world params (trainer opt_state sched_state)) :
  e = 0 \/ w_training w = false ->
  Forall eval_mode_after_first (out_events (body e w)) /\
  (out_res (body e w) = Ok tt -> w_training (out_world (body e w)) = false).
Proof.
  intros Hpre.
  assert (Hfwd : 1 <= e -> w_training w = false) by (destruct Hpre; [lia | auto]).
  iter_exec; (split; [each_event; cbn [eval_mode_after_first]; auto | try discriminate]).
  all: intros _; try reflexivity.
  all: destruct Hpre as [-> | Hw]; [|exact Hw].
  all: match goal with
       | H : mod_ 0 (eval_step _) = Ok ?r, H' : (?r =? 0) = false |- _ =>
           apply mod_zero_l in H; subst r; discriminate
       end.
Qed.

Lemma timeline_app (e1 e2 : list Ev) : timeline (e1 ++ e2) = timeline e1 ++ timeline e2.
Proof. apply flat_map_app. Qed.

Lemma timeline_cons (ev : Ev) (evs : list Ev) :
  timeline (ev :: evs) = mark_of ev ++ timeline evs.
Proof. reflexivity. Qed.

Lemma timeline_eval (l : list (batch R)) :
  timeline (map (fun _ => EvForward (R := R) (params := params) (opt_state := opt_state)
                            InEval false false) l) = [].
Proof. induction l; cbn; auto. Qed.

Lemma mod_ok (a n r : Z) : mod_ a n = Ok r -> r = a mod n.
Proof. unfold mod_. destruct (n =? 0); congruence. Qed.

Lemma log_count_cons (ev : Ev) (evs : list Ev) :
  log_count (ev :: evs) = (List.length (log_of ev) + log_count evs)%nat.
Proof. unfold log_count, logs. cbn [flat_map]. now rewrite length_app. Qed.

Lemma log_count_app (e1 e2 : list Ev) :
  log_count (e1 ++ e2) = (log_count e1 + log_count e2)%nat.
Proof. unfold log_count, logs. now rewrite flat_map_app, length_app. Qed.

Lemma log_count_eval (l : list (batch R)) :
  log_count (map (fun _ => EvForward (R := R) (params := params) (opt_state := opt_state)
                             InEval false false) l) = 0%nat.
Proof. induction l; cbn; auto. Qed.

(** A successful iteration [e] makes one training forward pass and then
    writes [model-e.pt] exactly when [e % save_step == 0]; the checkpoint
    holds the parameters and the optimiser state the iteration ends with;
    the iteration shows one log record. *)
Lemma train_iter_timeline (e : Z) (w : world params (trainer opt_state sched_state)) :
  out_res (body e w) = Ok tt ->
  timeline (out_events (body e w))
    = periodic_saves (ckpt_path (cfg_log config)) (save_step (cfg_train config)) [e] /\
  Forall (saves_state (out_world (body e w))) (out_events (body e w)) /\
  log_count (out_events (body e w)) = 1%nat.
Proof.
  intros Hok; revert Hok. iter_exec; intros Hok; try discriminate.
  all: match goal with
       | H : mod_ _ (save_step _) = Ok ?r |- _ => apply mod_ok in H; subst r
       end.
  all: split;
       [| split; [each_event; cbn [saves_state]; auto
                 | repeat first [ rewrite log_count_cons | rewrite log_count_app
                                | rewrite log_count_eval ];
                   cbn [log_of List.length]; reflexivity ]].
  all: unfold periodic_saves; cbn [flat_map app];
       repeat first [ rewrite timeline_cons | rewrite timeline_app | rewrite timeline_eval ];
       cbn [timeline flat_map mark_of app].
  all: match goal with H : (_ mod _ =? 0) = _ |- _ => rewrite H end; reflexivity.
Qed.

Lemma wandb_calls_app (e1 e2 : list Ev) :
  wandb_calls (e1 ++ e2) = wandb_calls e1 ++ wandb_calls e2.
Proof. apply filter_app. Qed.

Lemma wandb_calls_eval (l : list (batch R)) :
  wandb_calls (map (fun _ => EvForward (R := R) (params := params) (opt_state := opt_state)
                             InEval false false) l) = [].
Proof. induction l; cbn; auto. Qed.

Lemma wandb_calls_cons (ev : Ev) (evs : list Ev) :
  wandb_calls (ev :: evs) = (if is_wandb ev then [ev] else []) ++ wandb_calls evs.
Proof. unfold wandb_calls. cbn [filter]. destruct (is_wandb ev); reflexivity. Qed.

Lemma logs_cons (ev : Ev) (evs : list Ev) : logs (ev :: evs) = log_of ev ++ logs evs.
Proof. reflexivity. Qed.

Lemma logs_app' (e1 e2 : list Ev) : logs (e1 ++ e2) = logs e1 ++ logs e2.
Proof. apply flat_map_app. Qed.

Lemma logs_eval (l : list (batch R)) :
  logs (map (fun _ => EvForward (R := R) (params := params) (opt_state := opt_state)
                             InEval false false) l) = [].
Proof. induction l; cbn; auto. Qed.

(** What holds of an iteration however it ends. *)
Lemma train_iter_always (e : Z) (w : world params (trainer opt_state sched_state)) :
  Forall (fun ev => grad_mode_ok (w_grad_enabled w) ev /\ loop_event ev = true)
         (out_events (body e w)) /\
  w_grad_enabled (out_world (body e w)) = w_grad_enabled w /\
  wandb_calls (out_events (body e w))
    = (if wandb_installed env && a_log args then map EvWandbLog (logs (out_events (body e w))) else []) /\
  (out_res (body e w) <> Ok tt ->
   timeline (out_events (body e w)) = [Iteration e]).
Proof.
  iter_exec.
  all: (split; [each_event; (split; [cbn [grad_mode_ok]; auto | reflexivity])
               | split; [reflexivity | split]]).
  all: try (intros Hne; try (exfalso; apply Hne; reflexivity);
            repeat first [ rewrite timeline_cons | rewrite timeline_app | rewrite timeline_eval ];
            cbn [timeline flat_map mark_of app]; reflexivity).
  all: repeat first [ rewrite wandb_calls_cons | rewrite logs_cons
                    | rewrite wandb_calls_app | rewrite logs_app' | rewrite wandb_calls_eval
                    | rewrite logs_eval ];
       cbn; reflexivity.
Qed.

Lemma train_grad_eval (l : list (batch R)) :
  flat_map train_grad_of
           (map (fun _ => EvForward (R := R) (params := params) (opt_state := opt_state)
                            InEval false false) l)
  = [].
Proof. induction l; cbn; auto. Qed.

Lemma subsample_ok_pos (s t : Z) (out a : t4 R) :
  subsample s t out = Ok a -> 1 <= s /\ 1 <= t.
Proof.
  unfold subsample. destruct ((s <=? 0) || (t <=? 0)) eqn:E; [discriminate|].
  apply orb_false_iff in E. destruct E as [Hs Ht]. apply Z.leb_gt in Hs, Ht. lia.
Qed.

Lemma mod_ok_nz (a n r : Z) : mod_ a n = Ok r -> n <> 0 /\ r = a mod n.
Proof.
  unfold mod_. destruct (n =? 0) eqn:E; [discriminate|].
  apply Z.eqb_neq in E. intros [= <-]. auto.
Qed.

Lemma truediv_int_ok (x y : R) (n : Z) :
  truediv_int x n = Ok y -> n <> 0 /\ y = s_div x (s_of_int n).
Proof.
  unfold truediv_int. destruct (n =? 0) eqn:E; [discriminate|].
  apply Z.eqb_neq in E. intros [= <-]. auto.
Qed.

Lemma len_nonzero A (l : list A) : len l <> 0 -> l <> [].
Proof. intros H ->. apply H. reflexivity. Qed.

(** What a successful iteration needed and what it leaves. *)
Lemma train_iter_ok (e : Z) (w : world params (trainer opt_state sched_state)) :
  out_res (body e w) = Ok tt ->
  (eval_step (cfg_train config) <> 0 /\ save_step (cfg_train config) <> 0 /\
   1 <= s_step /\ 1 <= t_step /\
   (e mod eval_step (cfg_train config) = 0 -> val_loader <> [])) /\
  tr_draws (w_rest (out_world (body e w))) = S (tr_draws (w_rest w)) /\
  flat_map train_grad_of (out_events (body e w)) = [(e, w_grad_enabled w)] /\
  exists d,
    logs (out_events (body e w)) = [d] /\
    map fst d = log_keys (cfg_train config) e /\
    (e mod eval_step (cfg_train config) = 0 ->
     dict_get d "val error"
     = Some (mean_batch_error X lploss (w_params (out_world (body e w))) val_loader)) /\
    (e mod eval_step (cfg_train config) <> 0 -> dict_get d "val error" = None).
Proof.
  intros Hok; revert Hok. iter_exec; intros Hok; try discriminate.
  all: repeat match goal with
       | H : subsample _ _ _ = Ok _ |- _ => apply subsample_ok_pos in H
       | H : mod_ _ _ = Ok ?r |- _ => apply mod_ok_nz in H; destruct H as [? ->]
       | H : truediv_int _ _ = Ok ?y |- _ => apply truediv_int_ok in H; destruct H as [? ->]
       | H : (_ =? 0) = true |- _ => apply Z.eqb_eq in H
       | H : (_ =? 0) = false |- _ => apply Z.eqb_neq in H
       | H : negb _ = true |- _ => apply negb_true_iff in H
       | H : negb _ = false |- _ => apply negb_false_iff in H
       end.
  all: split; [ repeat split; try tauto; try lia; try (intros _; now apply len_nonzero)
              | split; [reflexivity|] ].
  all: split; [ cbn [flat_map train_grad_of app]; rewrite ?flat_map_app, ?train_grad_eval;
                cbn [flat_map train_grad_of app]; reflexivity | ].
  all: eexists; split;
       [ repeat first [ rewrite logs_cons | rewrite logs_app' | rewrite logs_eval ];
         cbn [log_of app]; reflexivity | ].
  all: unfold log_keys;
       match goal with H : s_is_zero _ = _ |- _ => rewrite H end.
  all: split; [ first [ replace (e mod eval_step (cfg_train config) =? 0) with true
                          by (symmetry; now apply Z.eqb_eq)
                      | replace (e mod eval_step (cfg_train config) =? 0) with false
                          by (symmetry; now apply Z.eqb_neq) ];
                reflexivity | ].
  all: split; intros He; try contradiction; try reflexivity.
Qed.

End Iteration.

(** ** Whole runs of [train_ns] *)

Section Run.

Variable X : Ext.
Variable env : environment params opt_state.
Variable train_u_loader : train_loader.
Variable val_loader : list (batch R).
Variable config : config R.
Variable args : cli_args.

Let run := train_ns X env train_u_loader val_loader config args.

Lemma bind_Forall O A B (P : Ev -> Prop) (m : M R params opt_state O A)
    (k : A -> M R params opt_state O B) w :
  Forall P (out_events (m w)) ->
  (forall a w', Forall P (out_events (k a w'))) ->
  Forall P (out_events (bind m k w)).
Proof.
  intros Hm Hk. rewrite bind_run.
  destruct (out_res (m w)); cbn; [apply Forall_app; auto | exact Hm].
Qed.

(** Runs [train_ns] symbolically up to its loop. *)
Ltac run_exec :=
  unfold run, train_ns, new_generator; mrun; repeat (mcase; mrun).

(** Every event of a run satisfies [P] when the effects outside the loop
    do and every iteration's do. *)
Lemma train_ns_Forall (P : Ev -> Prop) :
  P (EvMakedirs (ckpt_dir (cfg_log config))) ->
  P (EvWandbInit config) ->
  P EvWandbFinish ->
  (forall v s_step t_step forcing_ lploss e w,
      Forall P (out_events (train_iter X env train_u_loader val_loader config args
                                       v s_step t_step forcing_ lploss e w))) ->
  forall w, Forall P (out_events (run w)).
Proof.
  intros Hmk Hinit Hfin Hiter w.
  run_exec; each_event; auto.
  all: apply bind_Forall;
       [ apply (@for_each_inv R params opt_state _ Z P (fun _ => True)); auto
       | intros; mrun; repeat (mcase; mrun); each_event; auto ].
Qed.

(** Every log record of a run accounts for its total loss. *)
Lemma train_ns_accounts (w : world params (trainer opt_state sched_state)) :
  Forall (logs_satisfy (loss_breakdown (cfg_train config))) (out_events (run w)).
Proof.
  eapply Forall_impl; [|apply (@train_ns_Forall
    (fun ev => logs_satisfy (loss_breakdown (cfg_train config)) ev /\
               training_event ev = true))].
  - intros ev [H _]; exact H.
  - split; [exact I | reflexivity].
  - split; [exact I | reflexivity].
  - split; [exact I | reflexivity].
  - intros. apply train_iter_accounts.
Qed.

(** A run of [train_ns] has no effects but those of the training loop. *)
Lemma train_ns_effects (w : world params (trainer opt_state sched_state)) :
  Forall (fun ev => training_event ev = true) (out_events (run w)).
Proof.
  eapply Forall_impl; [|apply (@train_ns_Forall
    (fun ev => logs_satisfy (loss_breakdown (cfg_train config)) ev /\
               training_event ev = true))].
  - intros ev [_ H]; exact H.
  - split; [exact I | reflexivity].
  - split; [exact I | reflexivity].
  - split; [exact I | reflexivity].
  - intros. apply train_iter_accounts.
Qed.

Lemma for_each_ext O A (f g : A -> M R params opt_state O unit) (l : list A) :
  (forall x w, f x w = g x w) -> forall w, for_each l f w = for_each l g w.
Proof.
  intros H. induction l as [|x l IH]; intros w; cbn [for_each]; [reflexivity|].
  rewrite !bind_run, H. destruct (out_res (g x w)); cbn; [|reflexivity].
  now rewrite IH.
Qed.

Lemma bind_ext O A B (m m' : M R params opt_state O A)
    (k k' : A -> M R params opt_state O B) w :
  m w = m' w -> (forall a w', k a w' = k' a w') -> bind m k w = bind m' k' w.
Proof.
  intros Hm Hk. rewrite !bind_run, Hm.
  destruct (out_res (m' w)); cbn; [now rewrite Hk | reflexivity].
Qed.

Lemma range_head (n : Z) : range n = [] \/ exists rest, range n = 0 :: rest.
Proof.
  unfold range. destruct (Z.to_nat n); cbn; [left | right; eexists]; reflexivity.
Qed.

(** C8. [eval_ns] leaves the model in evaluation mode, and nothing in
    [train_ns] switches it back: in every run, the forward pass of every
    training iteration after iteration 0 is made with the model in
    evaluation mode. *)
Theorem train_ns_eval_mode_sticks (w : world params (trainer opt_state sched_state)) :
  Forall eval_mode_after_first (out_events (run w)) /\
  (forall O (l : list (batch R)) (crit : criterion R) (w' : world params O),
      w_training (out_world (eval_ns X l crit w')) = false).
Proof.
  split; [|intros; rewrite eval_ns_run; reflexivity].
  assert (Hloop : forall v s t f lp l (w1 : world params (trainer opt_state sched_state)),
             match l with [] => True | e :: _ => e = 0 \/ w_training w1 = false end ->
             Forall eval_mode_after_first
               (out_events (for_each l (train_iter X env train_u_loader val_loader config
                                                   args v s t f lp) w1))).
  { intros v s t f lp l. induction l as [|e l IH]; intros w1 Hhead.
    - cbn. constructor.
    - cbn [for_each]. rewrite bind_run.
      destruct (train_iter_mode X env train_u_loader val_loader config args
                                v s t f lp (e := e) w1 Hhead) as [Hev Hpost].
      destruct (out_res _) as [[]|]; msimpl; [|exact Hev].
      apply Forall_app. split; [exact Hev|].
      apply IH. destruct l; [exact I | right; auto]. }
  run_exec; each_event; cbn [eval_mode_after_first]; auto.
  all: apply bind_Forall;
       [ apply Hloop; destruct (range_head (num_iter (cfg_train config))) as [-> | [rest ->]];
         [exact I | left; reflexivity]
       | intros; mrun; repeat (mcase; mrun); each_event; cbn [eval_mode_after_first]; auto ].
Qed.

Lemma periodic_saves_cons (path : Z -> string) (s e : Z) (es : list Z) :
  periodic_saves path s (e :: es) = periodic_saves path s [e] ++ periodic_saves path s es.
Proof. unfold periodic_saves. cbn [flat_map]. now rewrite app_nil_r. Qed.

(** A successful loop over the iterations [es]. *)
Lemma loop_timeline v s t f lp (es : list Z) :
  forall w : world params (trainer opt_state sched_state),
    out_res (for_each es (train_iter X env train_u_loader val_loader config args
                                     v s t f lp) w) = Ok tt ->
    timeline (out_events (for_each es (train_iter X env train_u_loader val_loader config
                                                  args v s t f lp) w))
    = periodic_saves (ckpt_path (cfg_log config)) (save_step (cfg_train config)) es.
Proof.
  induction es as [|e es IH]; intros w Hok.
  - reflexivity.
  - cbn [for_each] in *.
    apply bind_ok in Hok. destruct Hok as ([] & Hiter & Hrest & Hev & _).
    rewrite Hev, timeline_app, periodic_saves_cons.
    f_equal.
    + now apply train_iter_timeline.
    + now apply IH.
Qed.

Lemma train_ns_timeline (w : world params (trainer opt_state sched_state)) :
  out_res (run w) = Ok tt ->
  timeline (out_events (run w))
  = periodic_saves (ckpt_path (cfg_log config)) (save_step (cfg_train config))
                   (range (num_iter (cfg_train config))).
Proof.
  intros Hok; revert Hok. run_exec; intros Hok; try discriminate.
  all: apply bind_ok in Hok; destruct Hok as ([] & Hloop & _ & Hev & _).
  all: rewrite Hev; repeat first [ rewrite timeline_cons | rewrite timeline_app ].
  all: rewrite (loop_timeline _ _ _ _ _ _ _ Hloop).
  all: mrun; repeat (mcase; mrun); cbn; now rewrite ?app_nil_r.
Qed.

Lemma loop_log_count v s t f lp (es : list Z) :
  forall w : world params (trainer opt_state sched_state),
    out_res (for_each es (train_iter X env train_u_loader val_loader config args
                                     v s t f lp) w) = Ok tt ->
    log_count (out_events (for_each es (train_iter X env train_u_loader val_loader config
                                                   args v s t f lp) w))
    = List.length es.
Proof.
  induction es as [|e es IH]; intros w Hok.
  - reflexivity.
  - cbn [for_each] in *.
    apply bind_ok in Hok. destruct Hok as ([] & Hiter & Hrest & Hev & _).
    rewrite Hev, log_count_app, (IH _ Hrest).
    destruct (train_iter_timeline X env train_u_loader val_loader config args
                                  v s t f lp e w Hiter) as (_ & _ & Hone).
    rewrite Hone. reflexivity.
Qed.

(** A run that completes shows one log record per iteration. *)
Lemma train_ns_log_count (w : world params (trainer opt_state sched_state)) :
  out_res (run w) = Ok tt ->
  log_count (out_events (run w)) = List.length (range (num_iter (cfg_train config))).
Proof.
  intros Hok; revert Hok. run_exec; intros Hok; try discriminate.
  all: apply bind_ok in Hok; destruct Hok as ([] & Hloop & _ & Hev & _).
  all: rewrite Hev; repeat first [ rewrite log_count_cons | rewrite log_count_app ].
  all: rewrite (loop_log_count _ _ _ _ _ _ _ Hloop); cbn [log_of List.length].
  all: mrun; repeat (mcase; mrun); unfold log_count, logs; cbn [log_of flat_map app List.length]; lia.
Qed.

(** C2 (as amended).  When the residual weight [f_weight] is zero and
    [ic_weight] is finite (not an infinity, not a NaN), the total loss of
    every iteration is [data_loss*xy_weight]: every log record holds the
    data loss and, as the total, line 112 over that data loss and the two
    zeros of line 111, which is the same number as [data_loss*xy_weight]
    (only the sign of a zero can differ), and has no ['IC'] or ['PDE']
    entry; a run that completes shows one such record for each of its
    [num_iter] iterations.  The PDE-residual routine is never called,
    and the run is the same whatever that routine would have returned.
    The facts about zero terms used are those of IEEE 754 arithmetic
    ([ZeroTerms]). *)
Theorem train_ns_zero_residual_weight {E : ZeroTerms R}
    (residual : t4 R -> t3 R -> forcing -> R -> R -> R * R)
    (w : world params (trainer opt_state sched_state)) :
  s_is_zero (f_loss (cfg_train config)) = true ->
  s_is_finite (ic_loss (cfg_train config)) = true ->
  Forall (logs_satisfy (data_only (cfg_train config))) (out_events (run w)) /\
  (out_res (run w) = Ok tt ->
   log_count (out_events (run w)) = Z.to_nat (num_iter (cfg_train config))) /\
  existsb is_residual (out_events (run w)) = false /\
  train_ns (with_residual X residual) env train_u_loader val_loader config args w = run w.
Proof.
  intros Hz Hic.
  assert (H : Forall (fun ev => logs_satisfy (data_only (cfg_train config)) ev /\
                                is_residual ev = false) (out_events (run w))).
  { apply train_ns_Forall; try (split; [exact I | reflexivity]).
    intros. eapply train_iter_data_only; eassumption. }
  split; [|split; [|split]].
  - eapply Forall_impl; [|exact H]. intros ev [H1 _]; exact H1.
  - intros Hok. rewrite (train_ns_log_count w Hok).
    unfold range. now rewrite length_map, length_seq.
  - destruct (existsb is_residual (out_events (run w))) eqn:Hex; [|reflexivity].
    apply existsb_exists in Hex. destruct Hex as (ev & Hin & Hev).
    rewrite Forall_forall in H. destruct (H ev Hin) as [_ Hno]. congruence.
  - unfold run, train_ns.
    repeat (apply bind_ext; [reflexivity | intros]).
    apply bind_ext; [|reflexivity].
    apply for_each_ext. intros e w1.
    now apply train_iter_residual_unused.
Qed.
(** C1. In every training iteration the total loss is
    [data_loss*xy_weight + pde_loss*f_weight + ic_loss*ic_weight] with the
    three configured weights: every log record a run of [train_ns] emits
    (to the progress bar or to the tracker) holds the data loss under
    ['data'] and, under ['train loss'], that weighted sum, whose physics
    terms are the logged ['PDE'] and ['IC'] values when the residual
    weight is not zero and the zeros of line 111 when it is.  A run that
    completes shows one such record for each of its [num_iter]
    iterations. *)
Theorem train_ns_total_loss (w : world params (trainer opt_state sched_state)) :
  Forall (logs_satisfy (loss_breakdown (cfg_train config))) (out_events (run w)) /\
  (out_res (run w) = Ok tt ->
   log_count (out_events (run w)) = Z.to_nat (num_iter (cfg_train config))).
Proof.
  split; [apply train_ns_accounts|].
  intros Hok. rewrite (train_ns_log_count w Hok).
  unfold range. now rewrite length_map, length_seq.
Qed.


(** A computation followed by a guarded single effect. *)
Lemma bind_when_emit O (m : M R params opt_state O unit) (b : bool) (ev : Ev) w :
  bind m (fun _ => when b (emit ev)) w =
  {| out_events := out_events (m w) ++ (if is_ok (out_res (m w)) && b then [ev] else []);
     out_world := out_world (m w);
     out_res := out_res (m w) |}.
Proof.
  rewrite bind_run. destruct (out_res (m w)) as [[]|x]; cbn.
  - destruct b; reflexivity.
  - now rewrite app_nil_r.
Qed.

Lemma strides_ok_first (d : data_config R) (st : Z * Z) :
  strides d = Ok st -> exists p0, getitem (pde_res d) 0 = Ok p0.
Proof.
  unfold strides. destruct (getitem (pde_res d) 0) as [p0|]; [eauto | discriminate].
Qed.

(** The two ways a run of [train_ns] goes: it stops in lines 50-75,
    before any effect, or it creates the checkpoint directory, opens the
    tracker run if asked to, loops, and closes the tracker run if the
    loop came to its end. *)
Lemma train_ns_cases (w : world params (trainer opt_state sched_state)) :
  (exists x,
      run w = {| out_events := []; out_world := w; out_res := Raise x |} /\
      (truediv s_one (Re (cfg_data config)) = Raise x \/
       strides (cfg_data config) = Raise x)) \/
  (exists v st S,
      truediv s_one (Re (cfg_data config)) = Ok v /\
      strides (cfg_data config) = Ok st /\
      getitem (pde_res (cfg_data config)) 0 = Ok S /\
      let o := for_each (range (num_iter (cfg_train config)))
                        (train_iter X env train_u_loader val_loader config args
                                    v (fst st) (snd st) (get_forcing X S)
                                    (LpLoss X (Some true)))
                        (out_world (new_generator (R := R) (opt_state := opt_state) w)) in
      out_events (run w)
        = EvMakedirs (ckpt_dir (cfg_log config))
            :: (if wandb_installed env && a_log args then [EvWandbInit config] else [])
            ++ out_events o
            ++ (if is_ok (out_res o) && (wandb_installed env && a_log args)
                then [EvWandbFinish] else []) /\
      out_world (run w) = out_world o /\
      out_res (run w) = out_res o).
Proof.
  unfold run, train_ns. mrun.
  destruct (truediv s_one (Re (cfg_data config))) as [v|x] eqn:Hv; cbn [continue];
    [|left; exists x; auto].
  mrun.
  destruct (strides (cfg_data config)) as [st|x] eqn:Hst; cbn [continue];
    [|left; exists x; auto].
  destruct (strides_ok_first _ Hst) as [S HS].
  right. exists v, st, S.
  mrun. rewrite HS. cbn [continue].
  unfold new_generator.
  destruct (wandb_installed env && a_log args); mrun; rewrite bind_when_emit;
    cbn [out_events out_world out_res prepend app]; rewrite ?andb_true_r, ?andb_false_r;
    repeat split; reflexivity.
Qed.

(** Events of a loop satisfy [P] and the loop keeps [Inv], however it
    ends, when every iteration does. *)
Lemma for_each_always O A (P : Ev -> Prop) (Inv : world params O -> Prop)
    (body : A -> M R params opt_state O unit) (l : list A) :
  (forall x w, Inv w -> Forall P (out_events (body x w)) /\ Inv (out_world (body x w))) ->
  forall w, Inv w ->
    Forall P (out_events (for_each l body w)) /\ Inv (out_world (for_each l body w)).
Proof.
  intros Hbody. induction l as [|x l IH]; intros w Hw.
  - cbn. auto.
  - cbn [for_each]. rewrite bind_run. destruct (Hbody x w Hw) as [Hev Hpost].
    destruct (out_res (body x w)) as [[]|e]; cbn; [|auto].
    destruct (IH _ Hpost). split; [apply Forall_app|]; auto.
Qed.

(** The events of a loop satisfy what holds of no events, of the events
    of every iteration, and of two runs of events put together. *)
Lemma for_each_app_closed O A (Q : list Ev -> Prop)
    (body : A -> M R params opt_state O unit) (l : list A) :
  Q [] -> (forall a b, Q a -> Q b -> Q (a ++ b)) ->
  (forall x w, Q (out_events (body x w))) ->
  forall w, Q (out_events (for_each l body w)).
Proof.
  intros Hnil Happ Hbody. induction l as [|x l IH]; intros w.
  - exact Hnil.
  - cbn [for_each]. rewrite bind_run.
    destruct (out_res (body x w)) as [[]|e]; cbn; auto.
Qed.

Lemma loop_grad v s t f lp (es : list Z) (w : world params (trainer opt_state sched_state)) :
  let o := for_each es (train_iter X env train_u_loader val_loader config args v s t f lp) w in
  Forall (fun ev => grad_mode_ok (w_grad_enabled w) ev /\ loop_event ev = true)
         (out_events o) /\
  w_grad_enabled (out_world o) = w_grad_enabled w.
Proof.
  apply (for_each_always (P := fun ev => grad_mode_ok (w_grad_enabled w) ev /\
                                         loop_event ev = true)
                         (fun w' => w_grad_enabled w' = w_grad_enabled w));
    [|reflexivity].
  intros e w' Hw'.
  destruct (train_iter_always X env train_u_loader val_loader config args v s t f lp e w')
    as (Hev & Hg & _).
  rewrite Hw' in *. auto.
Qed.

(** The tracker run is opened with the configuration [train_ns] was
    given. *)
Lemma train_ns_inits (w : world params (trainer opt_state sched_state)) :
  Forall (fun ev => match ev with EvWandbInit c => c = config | _ => True end)
         (out_events (run w)).
Proof.
  destruct (train_ns_cases w) as [(x & Hrun & _) | (v & st & S & _ & _ & _ & Hev & _ & _)].
  - rewrite Hrun. constructor.
  - rewrite Hev.
    destruct (loop_grad v (fst st) (snd st) (get_forcing X S) (LpLoss X (Some true))
                        (range (num_iter (cfg_train config)))
                        (out_world (new_generator (R := R) (opt_state := opt_state) w)))
      as [Hloop _].
    apply Forall_cons; [exact I|].
    apply Forall_app. split; [destruct (_ && _); repeat constructor|].
    apply Forall_app. split; [|destruct (is_ok _ && _); repeat constructor].
    eapply Forall_impl; [|exact Hloop].
    intros ev [_ H]. destruct ev; try discriminate; exact I.
Qed.

Lemma loop_wandb v s t f lp (es : list Z) (w : world params (trainer opt_state sched_state)) :
  let o := for_each es (train_iter X env train_u_loader val_loader config args v s t f lp) w in
  wandb_calls (out_events o)
  = if wandb_installed env && a_log args then map EvWandbLog (logs (out_events o)) else [].
Proof.
  apply (for_each_app_closed
           (fun evs : list Ev =>
              wandb_calls evs
              = if wandb_installed env && a_log args then map EvWandbLog (logs evs) else [])).
  - destruct (_ && _); reflexivity.
  - intros a b Ha Hb. unfold Ev in *. cbn beta in *. rewrite wandb_calls_app, Ha, Hb.
    destruct (_ && _); [|reflexivity]. now rewrite logs_app', map_app.
  - intros e w'.
    now destruct (train_iter_always X env train_u_loader val_loader config args
                                    v s t f lp e w') as (_ & _ & H & _).
Qed.

(** X6.  The experiment tracker.  Without [--log], or without the [wandb]
    package, [train_ns] makes no tracker call at all.  With both, a run
    that gets past lines 50-75 opens one tracker run with the
    configuration, sends it every log record it shows on the progress
    bar, in the same order, and closes it exactly when the loop comes to
    its end: a run that raises leaves the tracker run open.  A run that
    completes has made [num_iter + 2] tracker calls. *)
Theorem train_ns_tracker (w : world params (trainer opt_state sched_state)) :
  (wandb_installed env && a_log args = false -> wandb_calls (out_events (run w)) = []) /\
  (wandb_installed env && a_log args = true ->
   out_events (run w) <> [] ->
   wandb_calls (out_events (run w))
   = EvWandbInit config
       :: map EvWandbLog (logs (out_events (run w)))
       ++ (if is_ok (out_res (run w)) then [EvWandbFinish] else [])) /\
  (wandb_installed env && a_log args = true ->
   out_res (run w) = Ok tt ->
   List.length (wandb_calls (out_events (run w)))
   = (Z.to_nat (num_iter (cfg_train config)) + 2)%nat).
Proof.
  assert (H12 :
    (wandb_installed env && a_log args = false -> wandb_calls (out_events (run w)) = []) /\
    (wandb_installed env && a_log args = true ->
     out_events (run w) <> [] ->
     wandb_calls (out_events (run w))
     = EvWandbInit config
         :: map EvWandbLog (logs (out_events (run w)))
         ++ (if is_ok (out_res (run w)) then [EvWandbFinish] else []))).
  2: { destruct H12 as [H1 H2]. split; [exact H1|]. split; [exact H2|].
       intros Htr Hok. rewrite H2; [|exact Htr|].
       - pose proof Hok as Hc. apply train_ns_log_count in Hc.
         unfold log_count, run in *. rewrite Hok. cbn [is_ok List.length].
         rewrite length_app, length_map, Hc. cbn [List.length].
         unfold range. rewrite length_map, length_seq. lia.
       - destruct (train_ns_cases w) as [(x & Hrun & _) | (v & st & S & _ & _ & _ & Hev & _)].
         + rewrite Hrun in Hok. discriminate.
         + rewrite Hev. discriminate. }
  destruct (train_ns_cases w) as [(x & Hrun & _) | (v & st & S & _ & _ & _ & Hev & _ & Hres)].
  - rewrite Hrun. cbn. split; [reflexivity | congruence].
  - rewrite Hev, Hres.
    pose proof (loop_wandb v (fst st) (snd st) (get_forcing X S) (LpLoss X (Some true))
                           (range (num_iter (cfg_train config)))
                           (out_world (new_generator (R := R) (opt_state := opt_state) w)))
      as Hloop.
    cbn zeta in Hloop.
    split; intros Htr; rewrite Htr in *; [|intros _];
      rewrite wandb_calls_cons, !wandb_calls_app, Hloop; cbn [is_wandb app wandb_calls filter].
    + rewrite andb_false_r. reflexivity.
    + rewrite andb_true_r. rewrite logs_cons. cbn [log_of app].
      rewrite logs_cons. cbn [log_of app]. rewrite logs_app'.
      destruct (is_ok _); cbn; now rewrite ?app_nil_r.
Qed.

(** A loop that raises does so in some iteration [e]: the iterations
    before it are complete, and [e] made its forward pass and wrote no
    checkpoint. *)
Lemma loop_crash v s t f lp (es : list Z) :
  forall w : world params (trainer opt_state sched_state),
    let o := for_each es (train_iter X env train_u_loader val_loader config args v s t f lp) w in
    out_res o <> Ok tt ->
    exists done e todo,
      es = done ++ e :: todo /\
      timeline (out_events o)
      = periodic_saves (ckpt_path (cfg_log config)) (save_step (cfg_train config)) done
          ++ [Iteration e].
Proof.
  induction es as [|e es IH]; intros w; cbn zeta.
  - cbn. congruence.
  - cbn [for_each]. rewrite bind_run.
    destruct (out_res (train_iter X env train_u_loader val_loader config args v s t f lp e w))
      as [[]|x] eqn:Hiter; cbn [continue prepend out_events out_res].
    + intros Hne. destruct (IH _ Hne) as (done & e' & todo & -> & Htl).
      exists (e :: done), e', todo. split; [reflexivity|].
      rewrite timeline_app, Htl, (periodic_saves_cons _ _ e done), <- app_assoc.
      f_equal. now apply train_iter_timeline.
    + intros _. exists [], e, es. split; [reflexivity|].
      destruct (train_iter_always X env train_u_loader val_loader config args
                                  v s t f lp e w) as (_ & _ & _ & H).
      apply H. rewrite Hiter. discriminate.
Qed.

(** X7.  What a run that raises leaves behind.  Either it stopped in lines
    50-75 and did nothing at all, or it stopped in some iteration [e]:
    then every earlier iteration is complete, with its checkpoint when
    its index is a multiple of [save_step], and iteration [e] made its
    forward pass but wrote no checkpoint. *)
Theorem train_ns_crash (w : world params (trainer opt_state sched_state)) :
  out_res (run w) <> Ok tt ->
  out_events (run w) = [] \/
  exists done e todo,
    range (num_iter (cfg_train config)) = done ++ e :: todo /\
    timeline (out_events (run w))
    = periodic_saves (ckpt_path (cfg_log config)) (save_step (cfg_train config)) done
        ++ [Iteration e].
Proof.
  intros Hne.
  destruct (train_ns_cases w) as [(x & Hrun & _) | (v & st & S & _ & _ & _ & Hev & _ & Hres)].
  - left. now rewrite Hrun.
  - right. rewrite Hres in Hne.
    destruct (loop_crash v (fst st) (snd st) (get_forcing X S) (LpLoss X (Some true))
                         (range (num_iter (cfg_train config))) _ Hne)
      as (done & e & todo & Hrange & Htl).
    exists done, e, todo. split; [exact Hrange|].
    rewrite Hev, timeline_cons, !timeline_app, Htl.
    destruct (out_res _) as [[]|x]; [congruence|].
    cbn [is_ok andb mark_of app]. destruct (_ && _); cbn; now rewrite app_nil_r.
Qed.

(** A loop that completes. *)
Lemma loop_ok v s t f lp (es : list Z) :
  forall w : world params (trainer opt_state sched_state),
    let o := for_each es (train_iter X env train_u_loader val_loader config args v s t f lp) w in
    out_res o = Ok tt ->
    (es <> [] ->
     eval_step (cfg_train config) <> 0 /\ save_step (cfg_train config) <> 0 /\
     1 <= s /\ 1 <= t) /\
    (forall e, In e es -> e mod eval_step (cfg_train config) = 0 -> val_loader <> []) /\
    tr_draws (w_rest (out_world o)) = (tr_draws (w_rest w) + List.length es)%nat /\
    flat_map train_grad_of (out_events o) = map (fun e => (e, w_grad_enabled w)) es /\
    map (map fst) (logs (out_events o)) = map (log_keys (cfg_train config)) es.
Proof.
  induction es as [|e es IH]; intros w; cbn zeta.
  - cbn. intros _. repeat split; try tauto; lia.
  - cbn [for_each]. intros Hok.
    apply bind_ok in Hok. destruct Hok as ([] & Hiter & Hrest & Hev & Hw).
    rewrite Hev, Hw.
    destruct (train_iter_ok X env train_u_loader val_loader config args v s t f lp e w Hiter)
      as ((He & Hs & Hss & Hts & Hval) & Hdraw & Hgrad & d & Hlogs & Hkeys & _).
    destruct (IH _ Hrest) as (_ & Hval' & Hdraw' & Hgrad' & Hkeys').
    destruct (train_iter_always X env train_u_loader val_loader config args v s t f lp e w)
      as (_ & Hg & _).
    split; [intros _; auto|]. split; [|split; [|split]].
    + intros e' [<- | Hin]; [exact Hval | now apply Hval'].
    + rewrite Hdraw', Hdraw. cbn [List.length]. lia.
    + rewrite flat_map_app, Hgrad, Hgrad', Hg. reflexivity.
    + rewrite logs_app', map_app, Hlogs. cbn [map app].
      f_equal; [exact Hkeys | exact Hkeys'].
Qed.

(** X5.  Gradient tracking in [train_ns]: every training forward pass is
    made under the gradient mode the run starts in, every evaluation
    forward pass with gradient tracking off, and the run ends, completed
    or not, with the gradient mode it started in.  A run that completes
    has made one training forward pass per iteration, in order, each
    under that mode. *)
Theorem train_ns_grad_mode (w : world params (trainer opt_state sched_state)) :
  Forall (grad_mode_ok (w_grad_enabled w)) (out_events (run w)) /\
  w_grad_enabled (out_world (run w)) = w_grad_enabled w /\
  (out_res (run w) = Ok tt ->
   flat_map train_grad_of (out_events (run w))
   = map (fun e => (e, w_grad_enabled w)) (range (num_iter (cfg_train config)))).
Proof.
  destruct (train_ns_cases w) as [(x & Hrun & _) | (v & st & S & _ & _ & _ & Hev & Hw & Hres)].
  - rewrite Hrun. cbn. repeat split; [constructor | discriminate].
  - rewrite Hev, Hw, Hres.
    destruct (loop_grad v (fst st) (snd st) (get_forcing X S) (LpLoss X (Some true))
                        (range (num_iter (cfg_train config)))
                        (out_world (new_generator (R := R) (opt_state := opt_state) w)))
      as [Hloop Hg].
    split; [|split; [exact Hg|]].
    + apply Forall_cons; [exact I|].
      apply Forall_app. split; [destruct (_ && _); repeat constructor|].
      apply Forall_app. split; [|destruct (is_ok _ && _); repeat constructor].
      eapply Forall_impl; [|exact Hloop]. now intros ev [H _].
    + intros Hok. apply loop_ok in Hok. destruct Hok as (_ & _ & _ & Hgrad & _).
      cbn [flat_map train_grad_of app]. rewrite !flat_map_app, Hgrad.
      replace (flat_map train_grad_of
                 (if wandb_installed env && a_log args then [EvWandbInit config] else []))
        with (@nil (Z * bool)) by (destruct (_ && _); reflexivity).
      match goal with
      | |- context [flat_map train_grad_of (if ?b then [EvWandbFinish] else [])] =>
          replace (flat_map train_grad_of (if b then [EvWandbFinish] else []))
            with (@nil (Z * bool)) by (destruct b; reflexivity)
      end.
      cbn [app]. now rewrite app_nil_r.
Qed.

Lemma range_pos (n : Z) : 0 < n -> exists rest, range n = 0 :: rest.
Proof.
  intros Hn. unfold range. destruct (Z.to_nat n) eqn:E; [lia|].
  cbn. eexists; reflexivity.
Qed.

Lemma truediv_ok_nonzero (x y q : R) : truediv x y = Ok q -> s_is_zero y = false.
Proof. unfold truediv. destruct (s_is_zero y); [discriminate | reflexivity]. Qed.

(** X8.  What a run needs to complete.  A run of [train_ns] with at least
    one iteration completes only if [Re] is not zero, both subsampling
    strides are at least 1, [eval_step] and [save_step] are not zero, and
    the validation loader is not empty (iteration 0 always evaluates). *)
Theorem train_ns_completion_needs (w : world params (trainer opt_state sched_state)) :
  out_res (run w) = Ok tt ->
  0 < num_iter (cfg_train config) ->
  s_is_zero (Re (cfg_data config)) = false /\
  (exists s_step t_step,
      strides (cfg_data config) = Ok (s_step, t_step) /\ 1 <= s_step /\ 1 <= t_step) /\
  eval_step (cfg_train config) <> 0 /\
  save_step (cfg_train config) <> 0 /\
  val_loader <> [].
Proof.
  intros Hok Hn.
  destruct (train_ns_cases w) as [(x & Hrun & _) | (v & st & S & Hv & Hst & _ & _ & _ & Hres)].
  - rewrite Hrun in Hok. discriminate.
  - rewrite Hres in Hok. apply loop_ok in Hok.
    destruct Hok as (Hneed & Hval & _).
    destruct (range_pos Hn) as [rest Hrange]. rewrite Hrange in *.
    destruct Hneed as (He & Hs & Hss & Hts); [discriminate|].
    split; [eapply truediv_ok_nonzero; eassumption|].
    split; [exists (fst st), (snd st); destruct st; auto|].
    repeat split; auto.
    apply (Hval 0); [left; reflexivity | apply Zmod_0_l].
Qed.

(** X9.  The log records of a run that completes.  Iteration [e] shows the
    keys ['IC'] and ['PDE'] (only with a residual weight that is not
    zero), then ['train loss'] and ['data'], then ['val error'] exactly
    when [e % eval_step == 0]; the validation error shown is the mean
    criterion value under the parameters the iteration ends with, that
    is, after its optimiser step. *)
Theorem train_ns_log_keys (w : world params (trainer opt_state sched_state)) :
  out_res (run w) = Ok tt ->
  map (map fst) (logs (out_events (run w)))
    = map (log_keys (cfg_train config)) (range (num_iter (cfg_train config))) /\
  (forall v s_step t_step forcing_ lploss e w1,
     let o := train_iter X env train_u_loader val_loader config args
                         v s_step t_step forcing_ lploss e w1 in
     out_res o = Ok tt ->
     exists d,
       logs (out_events o) = [d] /\
       dict_get d "val error"
       = if e mod eval_step (cfg_train config) =? 0
         then Some (mean_batch_error X lploss (w_params (out_world o)) val_loader)
         else None).
Proof.
  intros Hok. split.
  - destruct (train_ns_cases w) as [(x & Hrun & _) | (v & st & S & _ & _ & _ & Hev & _ & Hres)].
    + rewrite Hrun in Hok. discriminate.
    + rewrite Hres in Hok. rewrite Hev, logs_cons, !logs_app'.
      apply loop_ok in Hok. destruct Hok as (_ & _ & _ & _ & Hkeys).
      cbn [log_of app].
      replace (logs (if wandb_installed env && a_log args then [EvWandbInit config] else []))
        with (@nil (dict R)) by (destruct (_ && _); reflexivity).
      match goal with
      | |- context [logs (if ?b then [EvWandbFinish] else [])] =>
          replace (logs (if b then [EvWandbFinish] else []))
            with (@nil (dict R)) by (destruct b; reflexivity)
      end.
      cbn [app]. rewrite app_nil_r. exact Hkeys.
  - intros v s_step t_step forcing_ lploss e w1 o Hiter.
    destruct (train_iter_ok X env train_u_loader val_loader config args
                            v s_step t_step forcing_ lploss e w1 Hiter)
      as (_ & _ & _ & d & Hlogs & _ & Hyes & Hno).
    exists d. split; [exact Hlogs|].
    destruct (e mod eval_step (cfg_train config) =? 0) eqn:E.
    + apply Hyes. now apply Z.eqb_eq.
    + apply Hno. now apply Z.eqb_neq.
Qed.

(** X10.  A run that completes has drawn exactly [num_iter] batches from the
    generator it starts at line 86, one per iteration. *)
Theorem train_ns_draws (w : world params (trainer opt_state sched_state)) :
  out_res (run w) = Ok tt ->
  tr_draws (w_rest (out_world (run w))) = Z.to_nat (num_iter (cfg_train config)).
Proof.
  intros Hok.
  destruct (train_ns_cases w) as [(x & Hrun & _) | (v & st & S & _ & _ & _ & _ & Hw & Hres)].
  - rewrite Hrun in Hok. discriminate.
  - rewrite Hres in Hok. rewrite Hw.
    apply loop_ok in Hok. destruct Hok as (_ & _ & Hdraws & _).
    rewrite Hdraws. cbn. unfold range. now rewrite length_map, length_seq.
Qed.

(** X11.  No iterations.  With [num_iter <= 0] and a configuration that
    passes lines 50-75, [train_ns] creates the checkpoint directory,
    opens and closes the tracker run if asked to, and returns: no forward
    pass, no log record, no checkpoint, and the model and the optimiser
    are as they were. *)
Theorem train_ns_no_iterations (w : world params (trainer opt_state sched_state))
    (st : Z * Z) :
  num_iter (cfg_train config) <= 0 ->
  s_is_zero (Re (cfg_data config)) = false ->
  strides (cfg_data config) = Ok st ->
  out_res (run w) = Ok tt /\
  out_events (run w)
    = EvMakedirs (ckpt_dir (cfg_log config))
        :: (if wandb_installed env && a_log args
            then [EvWandbInit config; EvWandbFinish] else []) /\
  w_params (out_world (run w)) = w_params w /\
  w_training (out_world (run w)) = w_training w /\
  tr_opt (w_rest (out_world (run w))) = tr_opt (w_rest w).
Proof.
  intros Hn HRe Hst.
  destruct (train_ns_cases w) as [(x & _ & [Hx | Hx]) | (v & st' & S & _ & _ & _ & Hev & Hw & Hres)].
  - unfold truediv in Hx. rewrite HRe in Hx. discriminate.
  - congruence.
  - rewrite Hev, Hw, Hres.
    unfold range. replace (Z.to_nat (num_iter (cfg_train config))) with O by lia.
    cbn. destruct (_ && _); auto.
Qed.

(** X12.  [Re = 0]: line 50 raises [ZeroDivisionError] before anything else
    happens. *)
Theorem train_ns_zero_Re (w : world params (trainer opt_state sched_state)) :
  s_is_zero (Re (cfg_data config)) = true ->
  run w = {| out_events := []; out_world := w; out_res := Raise ZeroDivisionError |}.
Proof.
  intros HRe. unfold run, train_ns. mrun. unfold truediv. rewrite HRe. reflexivity.
Qed.

Lemma strides_degenerate (d : data_config R) (p0 p1 p2 d0 d1 d2 : Z) :
  pde_res d = [p0; p1; p2] -> data_res d = [d0; d1; d2] ->
  d0 = 0 \/ d2 = 1 ->
  strides d = Raise ZeroDivisionError.
Proof.
  intros Hp Hd Hz. unfold strides, floordiv. rewrite Hp, Hd.
  rewrite !(proj1 (getitem_triple _ _ _)), !(proj2 (getitem_triple _ _ _)).
  destruct (d0 =? 0) eqn:E0; [reflexivity|].
  destruct Hz as [-> | ->]; [discriminate | reflexivity].
Qed.

(** X13.  A data grid with [data_res[0] = 0] or a single time point
    ([data_res[2] = 1]) makes line 64 or line 65 divide by zero:
    [train_ns] raises [ZeroDivisionError] before it creates a directory
    or touches the model. *)
Theorem train_ns_degenerate_grid (w : world params (trainer opt_state sched_state))
    (p0 p1 p2 d0 d1 d2 : Z) :
  pde_res (cfg_data config) = [p0; p1; p2] ->
  data_res (cfg_data config) = [d0; d1; d2] ->
  d0 = 0 \/ d2 = 1 ->
  run w = {| out_events := []; out_world := w; out_res := Raise ZeroDivisionError |}.
Proof.
  intros Hp Hd Hz. unfold run, train_ns. mrun.
  unfold truediv. destruct (s_is_zero _); [reflexivity|]. cbn [continue]. mrun.
  rewrite (strides_degenerate _ Hp Hd Hz). reflexivity.
Qed.

Lemma checkpoints_written_timeline (evs : list Ev) :
  checkpoints_written evs
  = flat_map (fun m => match m with Checkpoint p => [p] | Iteration _ => [] end)
             (timeline evs).
Proof.
  induction evs as [|ev evs IH]; [reflexivity|].
  unfold checkpoints_written, timeline in *. cbn [flat_map].
  rewrite flat_map_app, <- IH.
  destruct ev as [| | | | | | | | | | | | [e|] tr g | | |]; reflexivity.
Qed.

Lemma periodic_saves_paths (path : Z -> string) (s : Z) (es : list Z) :
  flat_map (fun m => match m with Checkpoint p => [p] | Iteration _ => [] end)
           (periodic_saves path s es)
  = map path (filter (fun e => e mod s =? 0) es).
Proof.
  induction es as [|e es IH]; [reflexivity|].
  rewrite periodic_saves_cons, flat_map_app, IH.
  unfold periodic_saves. cbn [flat_map filter app].
  destruct (e mod s =? 0); reflexivity.
Qed.

Lemma NoDup_map_inj A B (f : A -> B) (l : list A) :
  (forall x y, f x = f y -> x = y) -> NoDup l -> NoDup (map f l).
Proof.
  intros Hinj. induction 1 as [|x l Hx _ IH]; cbn; constructor; [|exact IH].
  intros Hin. apply in_map_iff in Hin. destruct Hin as (y & Hy & Hin).
  apply Hinj in Hy. now subst.
Qed.

Lemma range_NoDup (n : Z) : NoDup (range n).
Proof.
  unfold range. apply NoDup_map_inj; [intros x y; apply Nat2Z.inj | apply seq_NoDup].
Qed.

(** X4.  No checkpoint file is written twice in a run: iterations with
    distinct indices write to distinct paths, whatever the log directory,
    so within a run that completes no checkpoint overwrites another. *)
Theorem train_ns_no_overwrite (w : world params (trainer opt_state sched_state)) :
  out_res (run w) = Ok tt ->
  checkpoints_written (out_events (run w))
    = map (ckpt_path (cfg_log config))
          (filter (fun e => e mod save_step (cfg_train config) =? 0)
                  (range (num_iter (cfg_train config)))) /\
  NoDup (checkpoints_written (out_events (run w))) /\
  (forall e1 e2, ckpt_path (cfg_log config) e1 = ckpt_path (cfg_log config) e2 -> e1 = e2).
Proof.
  intros Hok.
  assert (H : checkpoints_written (out_events (run w))
              = map (ckpt_path (cfg_log config))
                    (filter (fun e => e mod save_step (cfg_train config) =? 0)
                            (range (num_iter (cfg_train config))))).
  { rewrite checkpoints_written_timeline.
    rewrite (train_ns_timeline w Hok).
    apply periodic_saves_paths. }
  split; [exact H|]. split; [|apply ckpt_path_inj].
  rewrite H. apply NoDup_map_inj; [apply ckpt_path_inj|].
  apply NoDup_filter, range_NoDup.
Qed.
End Run.

(** ** [subprocess] *)

Section Subprocess.

Variable X : Ext.
Variable env : environment params opt_state.

Lemma datasets_built_app (e1 e2 : list Ev) :
  datasets_built (e1 ++ e2) = datasets_built e1 ++ datasets_built e2.
Proof. apply flat_map_app. Qed.

Lemma datasets_built_training (evs : list Ev) :
  Forall (fun ev => training_event ev = true) evs -> datasets_built evs = [].
Proof.
  induction 1 as [|ev evs Hev _ IH]; [reflexivity|].
  cbn [datasets_built flat_map]. fold (datasets_built evs). rewrite IH.
  destruct ev; try discriminate; reflexivity.
Qed.

Lemma not_seed_training (evs : list Ev) :
  Forall (fun ev => training_event ev = true) evs ->
  Forall (fun ev => is_seed ev = false) evs.
Proof.
  apply Forall_impl. intros ev H. destruct ev; try discriminate; reflexivity.
Qed.

Lemma eval_ns_effects O (l : list (batch R)) crit (w : world params O) :
  Forall (fun ev : Ev => training_event ev = true) (out_events (eval_ns X l crit w)).
Proof. rewrite eval_ns_run. cbn [out_events]. now apply Forall_map_const. Qed.

Lemma load_weights_found (args : cli_args) (model : params) :
  is_ok (snd (load_weights (R := R) env args model)) = checkpoint_found env args.
Proof.
  unfold load_weights, checkpoint_found.
  destruct (a_ckpt args) as [path|]; [|reflexivity].
  destruct (is_empty path); [reflexivity|].
  destruct (torch_load env path); reflexivity.
Qed.

Lemma load_weights_effects (args : cli_args) (model : params) :
  Forall (fun ev : Ev => is_seed ev = false /\ dataset_of ev = [])
         (fst (load_weights env args model)).
Proof.
  unfold load_weights.
  destruct (a_ckpt args) as [path|]; [|constructor].
  destruct (is_empty path); [constructor|].
  destruct (torch_load env path); repeat constructor.
Qed.

(** C7 (as amended).  In every run [subprocess] first seeds the framework
    CPU generator and the general generator with [args.seed], then, only
    when a GPU is available, the framework GPU generators with the same
    value, and constructs the model right after; nothing is seeded again
    later in the run. *)
Theorem subprocess_seeding (args : cli_args) (config : config R) :
  exists rest,
    fst (subprocess X env args config)
    = [EvManualSeed (a_seed args); EvRandomSeed (a_seed args)]
        ++ (if cuda_available env then [EvCudaSeedAll (a_seed args)] else [])
        ++ EvNewModel (cfg_model config)
             {| rng_torch := Some (a_seed args);
                rng_python := Some (a_seed args);
                rng_cuda := if cuda_available env then Some (a_seed args) else None |}
        :: rest /\
    Forall (fun ev => is_seed ev = false) rest.
Proof.
  unfold subprocess, seed_everything. cbn [fst snd cfg_model set_seed set_num_params].
  set (rng := {| rng_torch := _ |}).
  set (model := FNO3d X (cfg_model config) rng).
  pose proof (load_weights_effects args model) as Hload.
  destruct (load_weights env args model) as [loaded [model'|e]]; cbn [fst snd] in *.
  - assert (Hrun : Forall (fun ev : Ev => is_seed ev = false)
                     (fst (if a_test args
                           then run_test X (set_num_params (set_seed config (a_seed args))
                                                           (count_params X model)) model'
                           else run_train X env (set_num_params (set_seed config (a_seed args))
                                                                (count_params X model))
                                          args rng model'))).
    { destruct (a_test args).
      - unfold run_test.
        match goal with
        | |- context [out_events (eval_ns X ?l ?c ?w)] =>
            pose proof (not_seed_training (eval_ns_effects l c w)) as Hev
        end.
        destruct (out_res _); cbn [fst];
          repeat first [ apply Forall_cons; [reflexivity|] | apply Forall_app; split
                       | apply Forall_nil | exact Hev ].
      - unfold run_train. cbn [fst].
        repeat (apply Forall_cons; [reflexivity|]).
        apply not_seed_training, train_ns_effects. }
    set (run := if a_test args then _ else _) in *.
    destruct (snd run); cbn [fst].
    all: eexists; split; [rewrite <- !app_assoc; cbn [app]; reflexivity|].
    all: repeat first [ apply Forall_cons; [reflexivity|] | apply Forall_app; split
                      | apply Forall_nil | exact Hrun ].
    all: eapply Forall_impl; [|exact Hload]; intros ev [H _]; exact H.
  - eexists. split.
    + rewrite <- !app_assoc; cbn [app]; reflexivity.
    + repeat first [ apply Forall_cons; [reflexivity|] | apply Forall_app; split
                   | apply Forall_nil ].
      eapply Forall_impl; [|exact Hload]; intros ev [H _]; exact H.
Qed.

Lemma datasets_built_none (evs : list Ev) :
  Forall (fun ev => dataset_of ev = []) evs -> datasets_built evs = [].
Proof.
  induction 1 as [|ev evs Hev _ IH]; [reflexivity|].
  cbn [datasets_built flat_map]. fold (datasets_built evs). now rewrite Hev, IH.
Qed.

(** C10.  In test mode and in train mode alike the evaluation dataset
    (the test set, the validation set) is built with both [data_res] and
    [pde_res] equal to [config['test']['data_res']], so [eval_ns], which
    applies the criterion to the model output as it is, compares at one
    resolution; only the training set is built with the distinct
    [data_res] and [pde_res] of the data section.  (No dataset is built
    when the warm-start checkpoint is missing.)  Test mode, in full:
    the dataset is built, every batch of its loader gets one forward
    pass, and the error printed is the mean of the criterion on the
    model outputs as they are. *)
Theorem subprocess_datasets (args : cli_args) (config : config R) :
  datasets_built (fst (subprocess X env args config))
  = (if checkpoint_found env args
     then if a_test args
          then [evaluation_dataset config]
          else [training_dataset config; evaluation_dataset config]
     else []) /\
  single_resolution (test_data_res (cfg_test config)) (evaluation_dataset config) /\
  k_data_res (training_dataset config) = data_res (cfg_data config) /\
  k_pde_res (training_dataset config) = pde_res (cfg_data config) /\
  (forall model : params,
     let testloader := DataLoader X (KFDataset X (evaluation_dataset config))
                                  (test_batchsize (cfg_test config)) in
     fst (run_test X config model)
     = EvNewDataset (evaluation_dataset config)
         :: map (fun _ => EvForward InEval false false) testloader
         ++ match truediv_int
                    (sum_scalars (map (batch_error X (LpLoss X None) model) testloader))
                    (len testloader)
            with
            | Ok test_err => [EvPrintTestErr test_err]
            | Raise _ => []
            end).
Proof.
  split; [|repeat split].
  2: { intros model testloader. unfold run_test. rewrite eval_ns_run.
       cbn [out_res out_events]. fold testloader. cbn [w_params init_world].
       destruct (truediv_int _ _); cbn [fst app]; now rewrite ?app_nil_r. }
  unfold subprocess, seed_everything. cbn [fst snd cfg_model set_seed set_num_params].
  set (rng := {| rng_torch := _ |}).
  set (model := FNO3d X (cfg_model config) rng).
  rewrite <- (load_weights_found args model).
  assert (Hload : datasets_built (fst (load_weights (R := R) env args model)) = []).
  { apply datasets_built_none. eapply Forall_impl; [|apply load_weights_effects].
    intros ev [_ H]; exact H. }
  destruct (load_weights env args model) as [loaded [model'|e]]; cbn [fst snd is_ok] in *.
  - destruct (a_test args).
    + unfold run_test.
      match goal with
      | |- context [out_events (eval_ns X ?l ?c ?w)] =>
          pose proof (datasets_built_training (eval_ns_effects l c w)) as Hev
      end.
      destruct (out_res _); cbn [fst snd];
        rewrite !datasets_built_app, Hload, Hev; destruct (cuda_available env); reflexivity.
    + unfold run_train. cbn [fst snd].
      match goal with
      | |- context [out_events (train_ns X env ?l ?vl ?c ?a ?w)] =>
          pose proof (datasets_built_training (train_ns_effects X env l vl c a w)) as Hev
      end.
      destruct (out_res _); cbn [fst snd];
        rewrite !datasets_built_app, Hload, Hev; destruct (cuda_available env); reflexivity.
  - rewrite !datasets_built_app, Hload. destruct (cuda_available env); reflexivity.
Qed.

(** The model [subprocess] constructs, before any warm start. *)
Let fresh (args : cli_args) (config : config R) : params :=
  FNO3d X (cfg_model config) (snd (seed_everything (R := R) env (a_seed args))).

(** X14.  A warm start whose checkpoint file is missing: [subprocess] seeds,
    builds the model, prints its size, tries to load, and raises; no
    dataset is built, no forward pass made, ['Done!'] is not printed. *)
Theorem subprocess_missing_ckpt (args : cli_args) (config : config R) (path : string) :
  a_ckpt args = Some path ->
  is_empty path = false ->
  torch_load env path = None ->
  subprocess X env args config
  = (fst (seed_everything env (a_seed args))
       ++ [EvNewModel (cfg_model config) (snd (seed_everything (R := R) env (a_seed args)));
           EvPrint ("Number of parameters: "
                    ++ str_of_int (count_params X (fresh args config)))%string;
           EvLoadCkpt path],
     Raise FileNotFoundError).
Proof.
  intros Hck Hne Hload. unfold subprocess, load_weights, fresh.
  rewrite Hck, Hne, Hload. cbn [fst snd cfg_model set_seed set_num_params].
  now rewrite <- app_assoc.
Qed.

(** [train_ns] reads [args.log] and nothing else of the command line,
    and of its surroundings only whether [wandb] could be imported. *)
Lemma train_ns_reads (env' : environment params opt_state) (args args' : cli_args)
    l vl (c : config R) w :
  a_log args = a_log args' ->
  wandb_installed env = wandb_installed env' ->
  train_ns X env l vl c args w = train_ns X env' l vl c args' w.
Proof.
  intros Hlog Hwandb. unfold train_ns, train_iter. rewrite Hlog, Hwandb. reflexivity.
Qed.

(** [subprocess] reads the command line and its surroundings only so far. *)
Lemma subprocess_reads (env' : environment params opt_state) (args args' : cli_args)
    (config : config R) :
  a_log args = a_log args' ->
  a_seed args = a_seed args' ->
  a_test args = a_test args' ->
  cuda_available env = cuda_available env' ->
  wandb_installed env = wandb_installed env' ->
  (forall model, load_weights (R := R) env args model = load_weights env' args' model) ->
  subprocess X env args config = subprocess X env' args' config.
Proof.
  intros Hlog Hseed Htest Hcuda Hwandb Hload.
  unfold subprocess, seed_everything. rewrite Hseed, Htest, Hcuda, Hload.
  cbn [fst snd].
  destruct (snd (load_weights env' args' _)) as [model|x]; [|reflexivity].
  destruct (a_test args'); [reflexivity|].
  unfold run_train. cbn [fst snd].
  now rewrite (train_ns_reads env' args args' _ _ _ _ Hlog Hwandb).
Qed.

(** X15.  An empty [--ckpt] is no [--ckpt]: line 166 tests the string for
    truth, so the empty path is never handed to [torch.load] (the warm
    start does nothing and keeps the model), and the whole run is the
    run without the option. *)
Theorem subprocess_empty_ckpt (args args' : cli_args) (config : config R) :
  a_ckpt args = Some EmptyString ->
  a_ckpt args' = None ->
  a_log args = a_log args' ->
  a_seed args = a_seed args' ->
  a_test args = a_test args' ->
  subprocess X env args config = subprocess X env args' config /\
  (forall model, load_weights (R := R) env args model = ([], Ok model)).
Proof.
  intros Hck Hck' Hlog Hseed Htest.
  assert (Hload : forall model, load_weights (R := R) env args model = ([], Ok model))
    by (intros model; unfold load_weights; now rewrite Hck).
  split; [|exact Hload].
  apply subprocess_reads; auto.
  intros model. rewrite Hload. unfold load_weights. now rewrite Hck'.
Qed.

(** X16.  A warm start restores the model weights only.  The optimiser state
    a checkpoint holds is never read: two checkpoint stores that agree on
    the model weights give the same run.  (A checkpoint that is found is
    loaded: the model handed on is the one it holds.) *)
Theorem subprocess_ignores_optimizer_state (env' : environment params opt_state)
    (args : cli_args) (config : config R) :
  cuda_available env = cuda_available env' ->
  wandb_installed env = wandb_installed env' ->
  (forall path, option_map (@ck_model params opt_state) (torch_load env path)
                = option_map (@ck_model params opt_state) (torch_load env' path)) ->
  subprocess X env args config = subprocess X env' args config /\
  (forall (path : string) (ck : ckpt params opt_state) (model : params),
      a_ckpt args = Some path -> is_empty path = false -> torch_load env path = Some ck ->
      load_weights (R := R) env args model
      = ([EvLoadCkpt path; EvPrint ("Weights loaded from " ++ path)%string],
         Ok (ck_model ck))).
Proof.
  intros Hcuda Hwandb Hstore.
  split; [|intros path ck model Hck Hne Hload; unfold load_weights;
           now rewrite Hck, Hne, Hload].
  apply subprocess_reads; auto.
  intros model. unfold load_weights.
  destruct (a_ckpt args) as [path|]; [|reflexivity].
  destruct (is_empty path); [reflexivity|].
  specialize (Hstore path).
  destruct (torch_load env path), (torch_load env' path); cbn in Hstore;
    try discriminate; [|reflexivity].
  injection Hstore as ->. reflexivity.
Qed.

Lemma existsb_none A (f : A -> bool) (l : list A) :
  Forall (fun x => f x = false) l -> existsb f l = false.
Proof. induction 1 as [|x l Hx _ IH]; cbn; [reflexivity | now rewrite Hx, IH]. Qed.

Lemma not_done_training (evs : list Ev) :
  Forall (fun ev => training_event ev = true) evs ->
  Forall (fun ev => is_done ev = false) evs.
Proof.
  apply Forall_impl. intros ev H. destruct ev; try discriminate; reflexivity.
Qed.

Lemma load_weights_not_done (args : cli_args) (model : params) :
  Forall (fun ev : Ev => is_done ev = false) (fst (load_weights env args model)).
Proof.
  unfold load_weights.
  destruct (a_ckpt args) as [path|]; [|constructor].
  destruct (is_empty path); [constructor|].
  destruct (torch_load env path); repeat constructor.
Qed.

Lemma run_not_done (args : cli_args) (config : config R) rng (model : params) :
  Forall (fun ev : Ev => is_done ev = false)
         (fst (if a_test args then run_test X config model
               else run_train X env config args rng model)).
Proof.
  destruct (a_test args).
  - unfold run_test.
    match goal with
    | |- context [out_events (eval_ns X ?l ?c ?w)] =>
        pose proof (not_done_training (eval_ns_effects l c w)) as Hev
    end.
    destruct (out_res _); cbn [fst];
      repeat first [ apply Forall_cons; [reflexivity|] | apply Forall_app; split
                   | apply Forall_nil | exact Hev ].
  - unfold run_train. cbn [fst].
    repeat (apply Forall_cons; [reflexivity|]).
    apply not_done_training, train_ns_effects.
Qed.

(** X17.  ['Done!'] is the last thing [subprocess] prints when it returns,
    and it is printed in no run that raises. *)
Theorem subprocess_done (args : cli_args) (config : config R) :
  existsb is_done (fst (subprocess X env args config))
    = is_ok (snd (subprocess X env args config)) /\
  (snd (subprocess X env args config) = Ok tt ->
   exists evs, fst (subprocess X env args config) = evs ++ [EvPrint "Done!"]).
Proof.
  unfold subprocess, seed_everything. cbn [fst snd cfg_model set_seed set_num_params].
  set (rng := {| rng_torch := _ |}).
  set (model := FNO3d X (cfg_model config) rng).
  pose proof (load_weights_not_done args model) as Hload.
  set (built := (_ ++ _) ++ [EvNewModel _ _; _]).
  assert (Hbuilt : Forall (fun ev : Ev => is_done ev = false) built).
  { subst built. destruct (cuda_available env); repeat constructor. }
  destruct (load_weights env args model) as [loaded [model'|x]]; cbn [fst snd] in *.
  - pose proof (run_not_done args (set_num_params (set_seed config (a_seed args))
                                                  (count_params X model)) rng model') as Hrun.
    set (run := if a_test args then _ else _) in *.
    assert (Hall : Forall (fun ev : Ev => is_done ev = false) (built ++ loaded ++ fst run))
      by (apply Forall_app; split; [exact Hbuilt | apply Forall_app; split; assumption]).
    destruct (snd run); cbn [fst snd is_ok]; split.
    + replace (built ++ loaded ++ fst run ++ [EvPrint "Done!"])
        with ((built ++ loaded ++ fst run) ++ [EvPrint "Done!"])
        by now rewrite <- !app_assoc.
      rewrite existsb_app, (existsb_none is_done Hall). reflexivity.
    + intros _. exists (built ++ loaded ++ fst run). now rewrite <- !app_assoc.
    + apply (existsb_none is_done Hall).
    + discriminate.
  - split; [|discriminate].
    apply (existsb_none is_done). apply Forall_app; split; [exact Hbuilt | exact Hload].
Qed.

Lemma load_weights_quiet (args : cli_args) (model : params) (c : config R) :
  Forall (fun ev : Ev => inference_only ev = true /\ tracked_config c ev)
         (fst (load_weights env args model)).
Proof.
  unfold load_weights.
  destruct (a_ckpt args) as [path|]; [|constructor].
  destruct (is_empty path); [constructor|].
  destruct (torch_load env path); repeat constructor.
Qed.

(** X18.  Test mode only evaluates.  With [--test], [subprocess] makes no
    training forward pass, computes no residual, creates no directory,
    writes no checkpoint, shows no log record and makes no tracker call,
    whatever [--log] says; every forward pass is made in evaluation mode
    with gradient tracking off.  When the warm start, if there is one,
    finds its file, the test set is built and every batch of its loader
    gets one such forward pass. *)
Theorem subprocess_test_mode (args : cli_args) (config : config R) :
  a_test args = true ->
  Forall (fun ev => inference_only ev = true) (fst (subprocess X env args config)) /\
  (checkpoint_found env args = true ->
   exists before after,
     fst (subprocess X env args config)
     = before
         ++ EvNewDataset (evaluation_dataset config)
         :: map (fun _ => EvForward InEval false false)
                (DataLoader X (KFDataset X (evaluation_dataset config))
                            (test_batchsize (cfg_test config)))
         ++ after).
Proof.
  intros Htest. split.
  2: { intros Hfound. unfold subprocess. rewrite Htest.
       cbn [fst snd cfg_model set_seed set_num_params].
       match goal with
       | |- context [load_weights env args ?m] =>
           pose proof (load_weights_found args m) as Hload;
           destruct (load_weights env args m) as [loaded [model'|x]]
       end; cbn [fst snd is_ok] in *; [|congruence].
       unfold run_test. rewrite eval_ns_run. cbn [out_res out_events].
       change (KFDataset X _) with (KFDataset X (evaluation_dataset config)).
       cbn [cfg_test set_num_params set_seed].
       destruct (truediv_int _ _) as [r|x]; cbn [fst snd].
       - match goal with
         | |- context [?b ++ loaded ++ _] =>
             exists (b ++ loaded), [EvPrintTestErr r; EvPrint "Done!"]
         end.
         rewrite <- !app_assoc. cbn [app]. reflexivity.
       - match goal with
         | |- context [?b ++ loaded ++ _] => exists (b ++ loaded), []
         end.
         rewrite <- !app_assoc. cbn [app]. now rewrite ?app_nil_r. }
  unfold subprocess, seed_everything. rewrite Htest.
  cbn [fst snd cfg_model set_seed set_num_params].
  set (rng := {| rng_torch := _ |}).
  set (model := FNO3d X (cfg_model config) rng).
  pose proof (load_weights_quiet args model config) as Hload.
  apply (Forall_impl (fun ev : Ev => inference_only ev = true)) in Hload; [|now intros ev [H _]].
  destruct (cuda_available env).
  all: destruct (load_weights env args model) as [loaded [model'|x]]; cbn [fst snd] in *.
  all: try (unfold run_test; rewrite eval_ns_run; cbn [out_res out_events];
            destruct (truediv_int _ _); cbn [fst snd]).
  all: repeat first [ apply Forall_cons; [reflexivity|] | apply Forall_app; split
                    | apply Forall_nil | exact Hload | apply Forall_map_const; reflexivity ].
Qed.

(** X19.  A warm start in test mode reports the error of the loaded weights:
    the error printed, right before ['Done!'], is the mean criterion
    value of the checkpoint's model on the test loader. *)
Theorem subprocess_test_warm_start (args : cli_args) (config : config R)
    (path : string) (ck : ckpt params opt_state) :
  a_test args = true ->
  a_ckpt args = Some path ->
  is_empty path = false ->
  torch_load env path = Some ck ->
  DataLoader X (KFDataset X (evaluation_dataset config)) (test_batchsize (cfg_test config))
    <> [] ->
  snd (subprocess X env args config) = Ok tt /\
  exists evs,
    fst (subprocess X env args config)
    = evs ++ [EvLoadCkpt path; EvPrint ("Weights loaded from " ++ path)%string;
              EvNewDataset (evaluation_dataset config)]
          ++ map (fun _ => EvForward InEval false false)
                 (DataLoader X (KFDataset X (evaluation_dataset config))
                             (test_batchsize (cfg_test config)))
          ++ [EvPrintTestErr
                (mean_batch_error X (LpLoss X None) (ck_model ck)
                   (DataLoader X (KFDataset X (evaluation_dataset config))
                               (test_batchsize (cfg_test config))));
              EvPrint "Done!"].
Proof.
  intros Htest Hck Hne Hload Hdata.
  unfold subprocess, load_weights. rewrite Htest, Hck, Hne, Hload.
  cbn [fst snd cfg_model set_seed set_num_params].
  unfold run_test. rewrite eval_ns_run. cbn [out_res out_events w_params init_world].
  change (KFDataset X _) with (KFDataset X (evaluation_dataset config)).
  cbn [cfg_test set_num_params set_seed].
  set (testloader := DataLoader X _ _) in *.
  unfold truediv_int.
  replace (len testloader =? 0) with false
    by (symmetry; apply Z.eqb_neq; unfold len; destruct testloader; [congruence | cbn; lia]).
  cbn [fst snd]. split; [reflexivity|].
  match goal with
  | |- context [(?a ++ [EvNewModel ?m ?r; ?p]) ++ _] => exists (a ++ [EvNewModel m r; p])
  end.
  unfold mean_batch_error. rewrite <- !app_assoc. cbn [app]. reflexivity.
Qed.

(** X20.  What the tracker is told about the run.  The configuration handed
    to [wandb.init] is the configuration of the file with the seed in
    use under ['seed'] and, under ['num_params'], the parameter count of
    the model as constructed; no other configuration is ever sent.  In
    train mode with tracking on it is sent, once the warm start and
    lines 50-75 are passed. *)
Theorem subprocess_tracked_config (args : cli_args) (config : config R) :
  Forall (tracked_config
            (set_num_params (set_seed config (a_seed args))
                            (count_params X (fresh args config))))
         (fst (subprocess X env args config)) /\
  cfg_seed (set_num_params (set_seed config (a_seed args))
                           (count_params X (fresh args config))) = Some (a_seed args) /\
  cfg_num_params (set_num_params (set_seed config (a_seed args))
                                 (count_params X (fresh args config)))
    = Some (count_params X (fresh args config)) /\
  (a_test args = false ->
   checkpoint_found env args = true ->
   wandb_installed env && a_log args = true ->
   s_is_zero (Re (cfg_data config)) = false ->
   (exists st, strides (cfg_data config) = Ok st) ->
   In (EvWandbInit (set_num_params (set_seed config (a_seed args))
                                   (count_params X (fresh args config))))
      (fst (subprocess X env args config))).
Proof.
  split; [|split; [reflexivity | split; [reflexivity|]]].
  2: { intros Htest Hfound Htrack HRe [st Hst].
       unfold fresh, subprocess, seed_everything. rewrite Htest.
       cbn [fst snd cfg_model set_seed set_num_params].
       set (rng := {| rng_torch := _ |}).
       set (model := FNO3d X (cfg_model config) rng).
       set (c := set_num_params _ _).
       pose proof (load_weights_found args model) as Hload.
       destruct (load_weights env args model) as [loaded [model'|x]];
         cbn [fst snd is_ok] in *; [|congruence].
       assert (Hin : In (EvWandbInit c) (fst (run_train X env c args rng model'))).
       { unfold run_train. cbn [fst].
         match goal with
         | |- context [train_ns X env ?l ?vl c args ?w] =>
             destruct (train_ns_cases X env l vl c args w)
               as [(x & _ & [Hx | Hx]) | (v & st' & S & _ & _ & _ & Hev & _)]
         end.
         - unfold truediv in Hx. cbn [cfg_data c set_num_params set_seed] in Hx.
           unfold c in Hx. cbn [cfg_data set_num_params set_seed] in Hx.
           rewrite HRe in Hx. discriminate.
         - unfold c in Hx. cbn [cfg_data set_num_params set_seed] in Hx. congruence.
         - rewrite Hev, Htrack. cbn. auto 10. }
       destruct (snd (run_train X env c args rng model')); cbn [fst];
         apply in_or_app; right; apply in_or_app; right;
         [apply in_or_app; left|]; exact Hin. }
  unfold fresh, subprocess, seed_everything. cbn [fst snd cfg_model set_seed set_num_params].
  set (rng := {| rng_torch := _ |}).
  set (model := FNO3d X (cfg_model config) rng).
  set (c := set_num_params _ _).
  pose proof (load_weights_quiet args model c) as Hload.
  apply (Forall_impl (tracked_config c)) in Hload; [|now intros ev [_ H]].
  assert (Hseeds : Forall (tracked_config (params := params) (opt_state := opt_state) c)
                     (if cuda_available env then [EvCudaSeedAll (a_seed args)] else []))
    by (destruct (cuda_available env); repeat constructor).
  destruct (load_weights env args model) as [loaded [model'|x]]; cbn [fst snd] in *.
  - assert (Hrun : Forall (tracked_config c)
                     (fst (if a_test args then run_test X c model'
                           else run_train X env c args rng model'))).
    { destruct (a_test args).
      - unfold run_test. rewrite eval_ns_run. cbn [out_res out_events].
        destruct (truediv_int _ _); cbn [fst];
          repeat first [ apply Forall_cons; [exact I|] | apply Forall_app; split
                       | apply Forall_nil | apply Forall_map_const; exact I ].
      - unfold run_train. cbn [fst].
        repeat (apply Forall_cons; [exact I|]).
        apply train_ns_inits. }
    set (run := if a_test args then _ else _) in *.
    destruct (snd run); cbn [fst];
      repeat first [ apply Forall_cons; [exact I|] | apply Forall_app; split
                   | apply Forall_nil | exact Hload | exact Hrun | exact Hseeds ].
  - repeat first [ apply Forall_cons; [exact I|] | apply Forall_app; split
                 | apply Forall_nil | exact Hload | exact Hseeds ].
Qed.

(** X21.  The seed of a run started from the command line.  [--seed]
    given, with any value (0 included), is the seed in use; [--seed] left
    out, the seed is what [random.randint(0, 100000)] returns, a number
    from 0 to 100000.  Either way [subprocess] starts by handing that
    one number to the framework generator and to the general one. *)
Theorem main_seed (randint : Z -> Z -> Z) (ns : namespace) (config : config R) :
  (forall a b, a <= b -> a <= randint a b <= b) ->
  exists seed rest,
    fst (main X env randint ns config)
      = EvManualSeed seed :: EvRandomSeed seed :: rest /\
    match n_seed ns with
    | Some given => seed = given
    | None => seed = randint 0 100000 /\ 0 <= seed <= 100000
    end.
Proof.
  intros Hrand. exists (a_seed (default_seed randint ns)).
  unfold main, subprocess, seed_everything. cbn [fst snd].
  match goal with
  | |- context [load_weights ?e ?a ?m] => destruct (load_weights e a m) as [loaded [model'|x]]
  end; cbn [fst snd].
  - match goal with
    | |- context [snd ?r] => destruct (snd r)
    end; cbn [fst]; (eexists; split; [rewrite <- !app_assoc; cbn [app]; reflexivity|]).
    all: unfold default_seed; cbn [a_seed]; destruct (n_seed ns); auto;
         split; [reflexivity | apply Hrand; lia].
  - eexists; split; [rewrite <- !app_assoc; cbn [app]; reflexivity|].
    unfold default_seed; cbn [a_seed]; destruct (n_seed ns); auto;
      split; [reflexivity | apply Hrand; lia].
Qed.

End Subprocess.

End Properties.

(* ===================================================================== *)
(** * The properties on the concrete instance *)
(* ===================================================================== *)

(** ** Runs of the instance *)

(** Three iterations with a zero residual weight, evaluating and saving
    every second one: the total is 3 times the data loss ([xy_loss] is 3). *)
Example toy_logs_zero_weight :
  map (map (fun kv : string * Qc => (fst kv, this (snd kv))))
      (logs (out_events (Toy.run (Q2Qc 0) 3 2 2)))
  = [[("train loss", 60 # 1); ("data", 20 # 1); ("val error", 36 # 1)];
     [("train loss", 15 # 1); ("data", 5 # 1)];
     [("train loss", 15 # 4); ("data", 5 # 4); ("val error", 9 # 4)]]%Q.
Proof. vm_compute. reflexivity. Qed.

(** With residual weight 1 the physics terms are logged and counted:
    [20 * 3 + (1/2) * 1 + (1/500) * 5 = 60.51]. *)
Example toy_first_log :
  map (map (fun kv : string * Qc => (fst kv, this (snd kv))))
      (firstn 1 (logs (out_events (Toy.run (Q2Qc 1) 3 2 2))))
  = [[("IC", 1 # 500); ("PDE", 1 # 2); ("train loss", 6051 # 100);
      ("data", 20 # 1); ("val error", 36 # 1)]]%Q.
Proof. vm_compute. reflexivity. Qed.

(** Only iteration 0 trains in training mode. *)
Example toy_modes :
  flat_map train_mode_of (out_events (Toy.run (Q2Qc 1) 4 2 3))
  = [(0, true); (1, false); (2, false); (3, false)].
Proof. vm_compute. reflexivity. Qed.

(** Test mode builds one dataset, at the test resolution. *)
Example toy_test_datasets :
  map (fun k : kf_args Qc => (k_data_res k, k_pde_res k))
      (datasets_built
         (fst (subprocess (Toy.X Toy.pde_grid) (Toy.env false) (Toy.args true)
                          (Toy.config Toy.pde_grid Toy.data_grid (Q2Qc 1) 2 1 1))))
  = [([8; 8; 9], [8; 8; 9])].
Proof. vm_compute. reflexivity. Qed.

(** Three iterations with [ic_loss = 5.0]: every total is three times
    the data loss. *)
Lemma train_ns_zero_residual_weight_witness :
  s_is_zero (f_loss (cfg_train (FloatToy.config (Binary64.of_int 5) 3))) = true /\
  s_is_finite (ic_loss (cfg_train (FloatToy.config (Binary64.of_int 5) 3))) = true /\
  out_res (FloatToy.run (Binary64.of_int 5) 3) = Ok tt /\
  Forall (logs_satisfy (data_only (cfg_train (FloatToy.config (Binary64.of_int 5) 3))))
         (out_events (FloatToy.run (Binary64.of_int 5) 3)) /\
  log_count (out_events (FloatToy.run (Binary64.of_int 5) 3)) = 3%nat /\
  existsb is_residual (out_events (FloatToy.run (Binary64.of_int 5) 3)) = false.
Proof.
  split; [reflexivity|]. split; [reflexivity|].
  assert (Hok : out_res (FloatToy.run (Binary64.of_int 5) 3) = Ok tt)
    by (vm_compute; reflexivity).
  split; [exact Hok|].
  destruct (@train_ns_zero_residual_weight spec_float _ spec_float Z Z spec_float Z
              (kf_args spec_float) (list (batch spec_float))
              (FloatToy.X [8; 8; 9]) FloatToy.env [FloatToy.sample [4; 4; 5]]
              [FloatToy.sample [8; 8; 9]; FloatToy.sample [8; 8; 9]]
              (FloatToy.config (Binary64.of_int 5) 3) (Toy.args false)
              ZeroTerms_binary64 (fun _ _ _ _ _ => (FloatToy.half, FloatToy.half))
              FloatToy.start eq_refl eq_refl)
    as (Hlogs & Hcount & Hres & _).
  split; [exact Hlogs|]. split; [exact (Hcount Hok) | exact Hres].
Defined.

(** [ic_loss = inf] with a zero residual weight: [0.0 * inf] is NaN, and
    so is the total, while [data_loss*xy_weight] is 60. *)
Lemma zero_residual_weight_infinite_ic :
  s_is_zero (f_loss (cfg_train (FloatToy.config FloatToy.infinity 1))) = true /\
  ic_loss (cfg_train (FloatToy.config FloatToy.infinity 1)) = S754_infinity false /\
  s_mul (S754_zero false) (S754_infinity false) = S754_nan /\
  out_res (FloatToy.run FloatToy.infinity 1) = Ok tt /\
  logs (out_events (FloatToy.run FloatToy.infinity 1))
  = [[("train loss", S754_nan);
      ("data", Binary64.of_int 20);
      ("val error", Binary64.of_int 36)]] /\
  s_mul (Binary64.of_int 20)
        (xy_loss (cfg_train (FloatToy.config FloatToy.infinity 1))) = Binary64.of_int 60 /\
  ~ same_number S754_nan (Binary64.of_int 60).
Proof.
  repeat split; try (vm_compute; reflexivity).
  intros [H | [H _]]; vm_compute in H; discriminate.
Qed.

(** The scenario of the specification. *)
Lemma strides_8_8_9_to_4_4_5_witness :
  has_shape4 (Toy.constant4 2 Toy.pde_grid Toy.half) [2; 8; 8; 9] = true /\
  strides (Toy.data Toy.pde_grid Toy.data_grid) = Ok (2, 2) /\
  exists u_pred,
    subsample 2 2 (Toy.constant4 2 Toy.pde_grid Toy.half) = Ok u_pred /\
    has_shape4 u_pred [2; 4; 4; 5] = true.
Proof.
  split; [reflexivity|].
  destruct (@strides_8_8_9_to_4_4_5 Qc (Toy.data Toy.pde_grid Toy.data_grid) 2
              (Toy.constant4 2 Toy.pde_grid Toy.half) eq_refl eq_refl eq_refl)
    as (Hst & u_pred & Hu & _ & Hsh).
  split; [exact Hst|]. exists u_pred. split; [exact Hu | exact Hsh].
Defined.

(** A 9 x 9 x 10 PDE grid against a 4 x 4 x 5 data grid: strides 2 and
    2, and a subsampled grid of 5 x 5 x 5. *)
Lemma floor_strides_misalign_witness :
  9 mod 4 <> 0 /\
  has_shape4 (Toy.constant4 2 [9; 9; 10] Toy.half) [2; 9; 9; 10] = true /\
  strides (Toy.data [9; 9; 10] [4; 4; 5]) = Ok (2, 2) /\
  exists u_pred,
    subsampled (Toy.data [9; 9; 10] [4; 4; 5]) (Toy.constant4 2 [9; 9; 10] Toy.half)
      = Ok u_pred /\
    has_shape4 u_pred [2; 5; 5; 5] = true.
Proof.
  split; [discriminate|]. split; [reflexivity|].
  destruct (@floor_strides_misalign Qc (Toy.data [9; 9; 10] [4; 4; 5]) 9 9 10 4 4 5 2
              (Toy.constant4 2 [9; 9; 10] Toy.half)
              eq_refl eq_refl) as [Hst (u & Hu & Hsh & _)];
    [lia | lia | left; discriminate | reflexivity | ].
  split; [exact Hst|]. exists u. split; [exact Hu | exact Hsh].
Defined.

(** A PDE grid coarser than the data grid: [4/8] is not an integer, the
    floor-divided spatial stride is 0, and the slicing raises
    [ValueError]; so does [train_ns], in its first iteration. *)
Lemma floor_stride_zero_raises :
  4 mod 8 <> 0 /\
  strides (Toy.data [4; 4; 9] [8; 8; 5]) = Ok (0, 2) /\
  has_shape4 (Toy.constant4 1 [4; 4; 9] Toy.half) [1; 4; 4; 9] = true /\
  subsampled (Toy.data [4; 4; 9] [8; 8; 5]) (Toy.constant4 1 [4; 4; 9] Toy.half)
    = Raise ValueError /\
  out_res (train_ns (Toy.X [4; 4; 9]) (Toy.env false)
                    (Toy.u_loader [8; 8; 5]) (Toy.val_loader [4; 4; 9])
                    (Toy.config [4; 4; 9] [8; 8; 5] (Q2Qc 1) 3 1 1)
                    (Toy.args false) Toy.start)
    = Raise ValueError.
Proof.
  split; [discriminate|].
  repeat split; vm_compute; reflexivity.
Qed.

(** Two validation batches: the mean is over 2. *)
Lemma eval_ns_mean_witness :
  Toy.val_loader Toy.pde_grid <> [] /\
  out_res (eval_ns (Toy.X Toy.pde_grid) (Toy.val_loader Toy.pde_grid) Toy.sq_err Toy.start)
  = Ok (mean_batch_error (Toy.X Toy.pde_grid) Toy.sq_err Toy.half
                         (Toy.val_loader Toy.pde_grid)).
Proof.
  assert (Hne : Toy.val_loader Toy.pde_grid <> []) by discriminate.
  split; [exact Hne|].
  exact (proj1 (@eval_ns_mean Qc _ Qc Z Z Qc Z (kf_args Qc) (list (batch Qc))
                  (Toy.X Toy.pde_grid) (trainer Z Z) Toy.sq_err
                  (Toy.val_loader Toy.pde_grid) Toy.start Hne)).
Defined.


(** Without a GPU the framework GPU generators are never seeded, though
    the model is constructed. *)
Lemma seeding_without_gpu :
  cuda_available (Toy.env false) = false /\
  existsb is_cuda_seed
    (fst (subprocess (Toy.X Toy.pde_grid) (Toy.env false) (Toy.args false)
                     (Toy.config Toy.pde_grid Toy.data_grid (Q2Qc 1) 2 1 1))) = false /\
  firstn 3
    (fst (subprocess (Toy.X Toy.pde_grid) (Toy.env false) (Toy.args false)
                     (Toy.config Toy.pde_grid Toy.data_grid (Q2Qc 1) 2 1 1)))
  = [EvManualSeed 7; EvRandomSeed 7;
     EvNewModel Toy.model {| rng_torch := Some 7; rng_python := Some 7; rng_cuda := None |}].
Proof.
  repeat split; vm_compute; reflexivity.
Qed.

(** ** More runs of the instance *)

(** A 1 x 1 x 3 x 4 tensor sliced with steps 2 and 3. *)
Lemma subsample_entries_witness :
  subsample 2 3 [[[[10; 11; 12; 13]; [20; 21; 22; 23]; [30; 31; 32; 33]]]]
    = Ok [[[[10; 13]; [30; 33]]]] /\
  at4 [[[[10; 13]; [30; 33]]]] 0 0 1 1 = Some 33 /\
  at4 [[[[10; 11; 12; 13]; [20; 21; 22; 23]; [30; 31; 32; 33]]]] 0 0 2 3 = Some 33.
Proof.
  assert (H : subsample 2 3 [[[[10; 11; 12; 13]; [20; 21; 22; 23]; [30; 31; 32; 33]]]]
              = Ok [[[[10; 13]; [30; 33]]]]) by reflexivity.
  split; [exact H|].
  destruct (subsample_entries _ _ _ 0 0 1 1 H) as (_ & _ & Hat).
  split; [reflexivity|]. exact (eq_trans (eq_sym Hat) eq_refl).
Defined.

(** A 12 x 12 x 13 PDE grid against a 4 x 4 x 5 data grid: strides 3 and 3. *)
Lemma exact_strides_align_witness :
  has_shape4 (Toy.constant4 2 [12; 12; 13] Toy.half) [2; 12; 12; 13] = true /\
  strides (Toy.data [12; 12; 13] [4; 4; 5]) = Ok (3, 3) /\
  exists u_pred,
    subsampled (Toy.data [12; 12; 13] [4; 4; 5]) (Toy.constant4 2 [12; 12; 13] Toy.half)
      = Ok u_pred /\
    has_shape4 u_pred [2; 4; 4; 5] = true.
Proof.
  split; [reflexivity|].
  destruct (@exact_strides_align Qc (Toy.data [12; 12; 13] [4; 4; 5]) 3 3 4 4 5 2
              (Toy.constant4 2 [12; 12; 13] Toy.half)) as (Hst & Hu & _);
    try lia; try reflexivity.
  split; [exact Hst | exact Hu].
Defined.

(** The log directory [/scratch/run1]. *)
Lemma ckpt_path_absolute_witness :
  ckpt_path {| logdir := "/scratch/run1"; project := "p"; entity := "e"; group := "g" |} 20
  = "/scratch/run1/ckpts/model-20.pt".
Proof.
  exact (proj2 (@ckpt_path_absolute
                  {| logdir := "/scratch/run1"; project := "p"; entity := "e"; group := "g" |}
                  20 eq_refl eq_refl)).
Defined.


(** Five iterations, a checkpoint every second one: three files. *)
Lemma train_ns_no_overwrite_witness :
  out_res (Toy.run (Q2Qc 1) 5 2 3) = Ok tt /\
  checkpoints_written (out_events (Toy.run (Q2Qc 1) 5 2 3))
  = ["exp/toy/ckpts/model-0.pt"; "exp/toy/ckpts/model-2.pt"; "exp/toy/ckpts/model-4.pt"] /\
  NoDup (checkpoints_written (out_events (Toy.run (Q2Qc 1) 5 2 3))).
Proof.
  assert (Hok : out_res (Toy.run (Q2Qc 1) 5 2 3) = Ok tt) by (vm_compute; reflexivity).
  split; [exact Hok|]. split; [vm_compute; reflexivity|].
  exact (proj1 (proj2 (@train_ns_no_overwrite Qc Scalar_Qc Qc Z Z Qc Z (kf_args Qc) (list (batch Qc))
                  (Toy.X Toy.pde_grid) (Toy.env false) (Toy.u_loader Toy.data_grid)
                  (Toy.val_loader Toy.pde_grid)
                  (Toy.config Toy.pde_grid Toy.data_grid (Q2Qc 1) 5 2 3) (Toy.args false)
                  Toy.start Hok))).
Defined.

(** A run that raises in iteration 1, on a batch without time steps. *)
Lemma train_ns_crash_witness :
  out_res Toy.crash_run = Raise IndexError /\
  timeline (out_events Toy.crash_run)
  = [Iteration 0; Checkpoint "exp/toy/ckpts/model-0.pt"; Iteration 1] /\
  (out_events Toy.crash_run = [] \/
   exists done e todo,
     range 3 = done ++ e :: todo /\
     timeline (out_events Toy.crash_run)
     = periodic_saves (ckpt_path (cfg_log (Toy.config Toy.pde_grid Toy.data_grid (Q2Qc 1) 3 1 1)))
                      1 done ++ [Iteration e]).
Proof.
  assert (Hres : out_res Toy.crash_run = Raise IndexError) by (vm_compute; reflexivity).
  split; [exact Hres|]. split; [vm_compute; reflexivity|].
  apply (@train_ns_crash Qc Scalar_Qc Qc Z Z Qc Z (kf_args Qc) (list (batch Qc))
           (Toy.X Toy.pde_grid) (Toy.env false) [Toy.sample Toy.data_grid; Toy.broken_sample]
           (Toy.val_loader Toy.pde_grid)
           (Toy.config Toy.pde_grid Toy.data_grid (Q2Qc 1) 3 1 1) (Toy.args false) Toy.start).
  fold Toy.crash_run. rewrite Hres. discriminate.
Defined.

(** The five-iteration run completes: what it needed holds. *)
Lemma train_ns_completion_needs_witness :
  out_res (Toy.run (Q2Qc 1) 5 2 3) = Ok tt /\
  strides (Toy.data Toy.pde_grid Toy.data_grid) = Ok (2, 2) /\
  Toy.val_loader Toy.pde_grid <> [].
Proof.
  assert (Hok : out_res (Toy.run (Q2Qc 1) 5 2 3) = Ok tt) by (vm_compute; reflexivity).
  split; [exact Hok|]. split; [reflexivity|].
  destruct (@train_ns_completion_needs Qc Scalar_Qc Qc Z Z Qc Z (kf_args Qc) (list (batch Qc))
              (Toy.X Toy.pde_grid) (Toy.env false) (Toy.u_loader Toy.data_grid)
              (Toy.val_loader Toy.pde_grid)
              (Toy.config Toy.pde_grid Toy.data_grid (Q2Qc 1) 5 2 3) (Toy.args false)
              Toy.start Hok eq_refl) as (_ & _ & _ & _ & Hval).
  exact Hval.
Defined.

(** Three iterations evaluating every second one. *)
Lemma train_ns_log_keys_witness :
  out_res (Toy.run (Q2Qc 1) 3 2 2) = Ok tt /\
  map (map fst) (logs (out_events (Toy.run (Q2Qc 1) 3 2 2)))
  = [["IC"; "PDE"; "train loss"; "data"; "val error"];
     ["IC"; "PDE"; "train loss"; "data"];
     ["IC"; "PDE"; "train loss"; "data"; "val error"]].
Proof.
  assert (Hok : out_res (Toy.run (Q2Qc 1) 3 2 2) = Ok tt) by (vm_compute; reflexivity).
  split; [exact Hok|].
  exact (proj1 (@train_ns_log_keys Qc Scalar_Qc Qc Z Z Qc Z (kf_args Qc) (list (batch Qc))
                  (Toy.X Toy.pde_grid) (Toy.env false) (Toy.u_loader Toy.data_grid)
                  (Toy.val_loader Toy.pde_grid)
                  (Toy.config Toy.pde_grid Toy.data_grid (Q2Qc 1) 3 2 2) (Toy.args false)
                  Toy.start Hok)).
Defined.

(** Five iterations, five batches. *)
Lemma train_ns_draws_witness :
  out_res (Toy.run (Q2Qc 1) 5 2 3) = Ok tt /\
  tr_draws (w_rest (out_world (Toy.run (Q2Qc 1) 5 2 3))) = 5%nat.
Proof.
  assert (Hok : out_res (Toy.run (Q2Qc 1) 5 2 3) = Ok tt) by (vm_compute; reflexivity).
  split; [exact Hok|].
  exact (@train_ns_draws Qc Scalar_Qc Qc Z Z Qc Z (kf_args Qc) (list (batch Qc))
           (Toy.X Toy.pde_grid) (Toy.env false) (Toy.u_loader Toy.data_grid)
           (Toy.val_loader Toy.pde_grid)
           (Toy.config Toy.pde_grid Toy.data_grid (Q2Qc 1) 5 2 3) (Toy.args false)
           Toy.start Hok).
Defined.

(** [num_iter = 0]. *)
Lemma train_ns_no_iterations_witness :
  out_res (Toy.run (Q2Qc 1) 0 2 3) = Ok tt /\
  out_events (Toy.run (Q2Qc 1) 0 2 3) = [EvMakedirs "exp/toy/ckpts"] /\
  w_params (out_world (Toy.run (Q2Qc 1) 0 2 3)) = Toy.half.
Proof.
  destruct (@train_ns_no_iterations Qc Scalar_Qc Qc Z Z Qc Z (kf_args Qc) (list (batch Qc))
              (Toy.X Toy.pde_grid) (Toy.env false) (Toy.u_loader Toy.data_grid)
              (Toy.val_loader Toy.pde_grid)
              (Toy.config Toy.pde_grid Toy.data_grid (Q2Qc 1) 0 2 3) (Toy.args false)
              Toy.start (2, 2) (Z.le_refl 0) eq_refl eq_refl) as (Hok & Hev & Hp & _).
  split; [exact Hok|]. split; [exact Hev | exact Hp].
Defined.

(** [Re = 0]. *)
Lemma train_ns_zero_Re_witness :
  s_is_zero (Re (cfg_data Toy.zero_Re)) = true /\
  out_res (train_ns (Toy.X Toy.pde_grid) (Toy.env false) (Toy.u_loader Toy.data_grid)
                    (Toy.val_loader Toy.pde_grid) Toy.zero_Re (Toy.args false) Toy.start)
  = Raise ZeroDivisionError.
Proof.
  split; [reflexivity|].
  exact (f_equal (@out_res _ _ _ _ _)
           (@train_ns_zero_Re Qc Scalar_Qc Qc Z Z Qc Z (kf_args Qc) (list (batch Qc))
              (Toy.X Toy.pde_grid) (Toy.env false) (Toy.u_loader Toy.data_grid)
              (Toy.val_loader Toy.pde_grid) Toy.zero_Re (Toy.args false) Toy.start eq_refl)).
Defined.

(** A data grid with one time point. *)
Lemma train_ns_degenerate_grid_witness :
  out_res (train_ns (Toy.X Toy.pde_grid) (Toy.env false) (Toy.u_loader [4; 4; 1])
                    (Toy.val_loader Toy.pde_grid)
                    (Toy.config Toy.pde_grid [4; 4; 1] (Q2Qc 1) 3 1 1) (Toy.args false)
                    Toy.start)
  = Raise ZeroDivisionError.
Proof.
  exact (f_equal (@out_res _ _ _ _ _)
           (@train_ns_degenerate_grid Qc Scalar_Qc Qc Z Z Qc Z (kf_args Qc) (list (batch Qc))
              (Toy.X Toy.pde_grid) (Toy.env false) (Toy.u_loader [4; 4; 1])
              (Toy.val_loader Toy.pde_grid)
              (Toy.config Toy.pde_grid [4; 4; 1] (Q2Qc 1) 3 1 1) (Toy.args false)
              Toy.start 8 8 9 4 4 1 eq_refl eq_refl (or_intror eq_refl))).
Defined.

(** A warm start from a file that is not there. *)
Lemma subprocess_missing_ckpt_witness :
  torch_load (Toy.env false) "model-20.pt" = None /\
  subprocess (Toy.X Toy.pde_grid) (Toy.env false) (Toy.warm_args false "model-20.pt")
             Toy.scenario
  = ([EvManualSeed 7; EvRandomSeed 7;
      EvNewModel Toy.model {| rng_torch := Some 7; rng_python := Some 7; rng_cuda := None |};
      EvPrint "Number of parameters: 1";
      EvLoadCkpt "model-20.pt"],
     Raise FileNotFoundError).
Proof.
  split; [reflexivity|].
  exact (@subprocess_missing_ckpt Qc Scalar_Qc Qc Z Z Qc Z (kf_args Qc) (list (batch Qc))
           (Toy.X Toy.pde_grid) (Toy.env false) (Toy.warm_args false "model-20.pt")
           Toy.scenario "model-20.pt" eq_refl eq_refl eq_refl).
Defined.

(** The empty path against no path. *)
Lemma subprocess_empty_ckpt_witness :
  subprocess (Toy.X Toy.pde_grid) (Toy.env false) (Toy.warm_args false EmptyString)
             Toy.scenario
  = subprocess (Toy.X Toy.pde_grid) (Toy.env false) (Toy.args false) Toy.scenario.
Proof.
  exact (proj1 (@subprocess_empty_ckpt Qc Scalar_Qc Qc Z Z Qc Z (kf_args Qc) (list (batch Qc))
                  (Toy.X Toy.pde_grid) (Toy.env false) (Toy.warm_args false EmptyString)
                  (Toy.args false) Toy.scenario eq_refl eq_refl eq_refl eq_refl eq_refl)).
Defined.

(** Two stores that differ in the optimiser state only. *)
Lemma subprocess_ignores_optimizer_state_witness :
  subprocess (Toy.X Toy.pde_grid) (Toy.store 0) (Toy.warm_args false "model-20.pt")
             Toy.scenario
  = subprocess (Toy.X Toy.pde_grid) (Toy.store 99) (Toy.warm_args false "model-20.pt")
               Toy.scenario.
Proof.
  exact (proj1 (@subprocess_ignores_optimizer_state Qc Scalar_Qc Qc Z Z Qc Z (kf_args Qc)
                  (list (batch Qc)) (Toy.X Toy.pde_grid) (Toy.store 0) (Toy.store 99)
                  (Toy.warm_args false "model-20.pt") Toy.scenario
                  eq_refl eq_refl (fun _ => eq_refl))).
Defined.

(** A test run: nine effects, all of them inference. *)
Lemma subprocess_test_mode_witness :
  a_test (Toy.args true) = true /\
  Forall (fun ev => inference_only ev = true)
         (fst (subprocess (Toy.X Toy.pde_grid) (Toy.env false) (Toy.args true) Toy.scenario)) /\
  List.length (fst (subprocess (Toy.X Toy.pde_grid) (Toy.env false) (Toy.args true)
                               Toy.scenario)) = 9%nat.
Proof.
  split; [reflexivity|]. split; [|vm_compute; reflexivity].
  exact (proj1 (@subprocess_test_mode Qc Scalar_Qc Qc Z Z Qc Z (kf_args Qc) (list (batch Qc))
                  (Toy.X Toy.pde_grid) (Toy.env false) (Toy.args true) Toy.scenario eq_refl)).
Defined.

(** The loaded weight 1 reproduces the all-ones truth: the error printed is 0. *)
Lemma subprocess_test_warm_start_witness :
  torch_load (Toy.store 0) "model-20.pt" = Some {| ck_model := Q2Qc 1; ck_optim := 0 |} /\
  snd (subprocess (Toy.X Toy.pde_grid) (Toy.store 0) (Toy.warm_args true "model-20.pt")
                  Toy.scenario) = Ok tt /\
  existsb (fun ev => match ev with
                     | EvPrintTestErr x => Qeq_bool (this x) 0
                     | _ => false
                     end)
          (fst (subprocess (Toy.X Toy.pde_grid) (Toy.store 0)
                           (Toy.warm_args true "model-20.pt") Toy.scenario)) = true.
Proof.
  split; [reflexivity|].
  destruct (@subprocess_test_warm_start Qc Scalar_Qc Qc Z Z Qc Z (kf_args Qc) (list (batch Qc))
              (Toy.X Toy.pde_grid) (Toy.store 0) (Toy.warm_args true "model-20.pt")
              Toy.scenario "model-20.pt" {| ck_model := Q2Qc 1; ck_optim := 0 |}
              eq_refl eq_refl eq_refl eq_refl) as [Hok _]; [discriminate|].
  split; [exact Hok | vm_compute; reflexivity].
Defined.

(** No [--seed], and a generator that returns its lower bound. *)
Lemma main_seed_witness :
  exists seed rest,
    fst (main (Toy.X Toy.pde_grid) (Toy.env false) (fun a _ => a) Toy.parsed Toy.scenario)
      = EvManualSeed seed :: EvRandomSeed seed :: rest /\
    0 <= seed <= 100000.
Proof.
  destruct (@main_seed Qc Scalar_Qc Qc Z Z Qc Z (kf_args Qc) (list (batch Qc))
              (Toy.X Toy.pde_grid) (Toy.env false) (fun a _ => a) Toy.parsed Toy.scenario
              (fun a b H => conj (Z.le_refl a) H)) as (seed & rest & Hev & _ & Hrange).
  exists seed, rest. split; [exact Hev | exact Hrange].
Defined.
